(** * price-shopee: a shallow embedding of [app.py] and its verified properties

    The development follows the layout of the source file: text helpers,
    the two value parsers, the header locator, the pricelist and addon
    loaders, the SKU decomposer, the price resolver and the batch
    reconciler [process_shopee_files].

    Modelling conventions.
    - Python [int] is [Z]; Python [float] is IEEE binary64, given by the
      Standard Library's [spec_float] with [prec = 53] and [emax = 1024].
    - Python [str] is [string].  The text primitives ([strip], [upper],
      [\d]) are modelled on the ASCII range: characters above 127 are
      neither white space nor digits and are left alone by [upper].
    - [dict] used as a map is [gmap string Z]; the header dictionary, whose
      iteration order the addon loader depends on, is an insertion-ordered
      association list.
    - [int] on a string of digits has no bound on the length of the text.
    - Exceptions are values of [exn]; fallible code returns [outcome].
    - openpyxl and [repr] on floats are outside the repository: they are
      the section variables [load_workbook] and [float_repr]. *)

From Stdlib Require Import ZArith Ascii String List Lia Bool.
From Stdlib Require Import Floats.SpecFloat.
From Stdlib Require Import Numbers.DecimalString.
From stdpp Require Import gmap strings list.

Local Open Scope Z_scope.

(** ** Python text primitives *)

Module PyStr.

(** [str.isspace] on the ASCII range: TAB, LF, VT, FF, CR, the four
    separators FS GS RS US, and the space. *)
Definition is_space (c : ascii) : bool :=
  let n := nat_of_ascii c in
  ((9 <=? n)%nat && (n <=? 13)%nat) || ((28 <=? n)%nat && (n <=? 32)%nat).

(** [\d] on the ASCII range. *)
Definition is_digit (c : ascii) : bool :=
  let n := nat_of_ascii c in (48 <=? n)%nat && (n <=? 57)%nat.

Definition digit_val (c : ascii) : Z := Z.of_nat (nat_of_ascii c) - 48.

Definition upper_char (c : ascii) : ascii :=
  let n := nat_of_ascii c in
  if (97 <=? n)%nat && (n <=? 122)%nat then ascii_of_nat (n - 32) else c.

Fixpoint upper (s : string) : string :=
  match s with
  | EmptyString => EmptyString
  | String c t => String (upper_char c) (upper t)
  end.

Definition is_empty (s : string) : bool :=
  match s with EmptyString => true | String _ _ => false end.

Fixpoint lstrip (s : string) : string :=
  match s with
  | EmptyString => EmptyString
  | String c t => if is_space c then lstrip t else s
  end.

Fixpoint rstrip (s : string) : string :=
  match s with
  | EmptyString => EmptyString
  | String c t =>
      let t' := rstrip t in
      if is_space c && is_empty t' then EmptyString else String c t'
  end.

(** [s.strip()] *)
Definition strip (s : string) : string := rstrip (lstrip s).

(** [s.split(sep)] for a one-character separator: never the empty list. *)
Fixpoint split (sep : ascii) (s : string) : list string :=
  match s with
  | EmptyString => [EmptyString]
  | String c t =>
      if Ascii.eqb c sep then EmptyString :: split sep t
      else match split sep t with
           | h :: r => String c h :: r
           | [] => [String c EmptyString]
           end
  end.

(** [sep.join(l)] *)
Fixpoint join (sep : string) (l : list string) : string :=
  match l with
  | [] => EmptyString
  | [x] => x
  | x :: r => x +:+ sep +:+ join sep r
  end.

(** [needle in hay] *)
Fixpoint contains (needle hay : string) : bool :=
  match hay with
  | EmptyString => String.prefix needle EmptyString
  | String _ t => String.prefix needle hay || contains needle t
  end.

(** [re.findall(r"\d+", s)]: the maximal runs of digits, left to right. *)
Fixpoint findall_digits (s : string) : list string :=
  match s with
  | EmptyString => []
  | String c t =>
      if is_digit c then
        match t with
        | String c' _ =>
            if is_digit c' then
              match findall_digits t with
              | h :: r => String c h :: r
              | [] => [String c EmptyString]
              end
            else String c EmptyString :: findall_digits t
        | EmptyString => [String c EmptyString]
        end
      else findall_digits t
  end.

Fixpoint int_acc (acc : Z) (s : string) : Z :=
  match s with
  | EmptyString => acc
  | String c t => int_acc (10 * acc + digit_val c) t
  end.

(** [int(s)] on a string of decimal digits. *)
Definition int_of_digits (s : string) : Z := int_acc 0 s.

(** [str(n)] for an [int]. *)
Definition str_int (n : Z) : string := NilZero.string_of_int (Z.to_int n).



End PyStr.

(** ** Exceptions *)

Inductive exn_class : Type :=
| ValueError | IndexError | OverflowError | LibraryError.

Record exn : Type := MkExn { exn_kind : exn_class; exn_msg : string }.

Inductive outcome (A : Type) : Type :=
| Ret (a : A)
| Raise (e : exn).
Arguments Ret {A} a.
Arguments Raise {A} e.

#[global] Instance outcome_ret : MRet outcome := fun A a => Ret a.

#[global] Instance outcome_bind : MBind outcome := fun A B k m =>
  match m with
  | Ret a => k a
  | Raise e => Raise e
  end.

(** ** Python floats *)

Module PyFloat.

Definition prec : Z := 53.
Definition emax : Z := 1024.

(** [float(n)] for an [int] in range: the nearest binary64. *)
Definition of_int (n : Z) : spec_float := binary_normalize prec emax n 0 false.

(** The float literal [1e-9]: 0x3E112E0BE826D695. *)
Definition lit_1e_9 : spec_float := S754_finite false 4835703278458517 (-82).

Definition is_nan (x : spec_float) : bool :=
  match x with S754_nan => true | _ => false end.

Definition ltb (x y : spec_float) : bool := SFltb x y.
Definition sub (x y : spec_float) : spec_float := SFsub prec emax x y.
Definition mul (x y : spec_float) : spec_float := SFmul prec emax x y.

(** The integer nearest to [m * 2^e], ties to the even one. *)
Definition nearest_even (m : positive) (e : Z) : Z :=
  if 0 <=? e then Z.pos m * 2 ^ e
  else
    let d := 2 ^ (- e) in
    let q := Z.pos m / d in
    let r := Z.pos m mod d in
    match 2 * r ?= d with
    | Lt => q
    | Gt => q + 1
    | Eq => if Z.even q then q else q + 1
    end.

(** [round(x)] on a float, which returns an [int]. *)
Definition round (x : spec_float) : outcome Z :=
  match x with
  | S754_zero _ => Ret 0
  | S754_finite s m e => Ret (cond_Zopp s (nearest_even m e))
  | S754_infinity _ =>
      Raise (MkExn OverflowError "cannot convert float infinity to integer")
  | S754_nan => Raise (MkExn ValueError "cannot convert float NaN to integer")
  end.

End PyFloat.

(** ** Cell values *)

(** What [cell.value] can hold.  [VOther s] is any other object (a date, a
    time, ...), known by its [str()]. *)
Inductive value : Type :=
| VNone
| VBool (b : bool)
| VInt (n : Z)
| VFloat (x : spec_float)
| VStr (s : string)
| VOther (s : string).

Section App.

(** [repr] of a float, a builtin. *)
Variable float_repr : spec_float -> string.

Definition py_str (x : value) : string :=
  match x with
  | VNone => "None"
  | VBool true => "True"
  | VBool false => "False"
  | VInt n => PyStr.str_int n
  | VFloat f => float_repr f
  | VStr s => s
  | VOther s => s
  end.

(** ** Helpers *)

Definition _norm_str (x : value) : string :=
  match x with
  | VNone => ""
  | _ => PyStr.strip (py_str x)
  end.

Definition _norm_key (x : value) : string :=
  PyStr.upper (PyStr.strip (_norm_str x)).

Definition parse_thousands_to_rp (x : value) : outcome (option Z) :=
  match x with
  | VNone => Ret None
  | VBool _ => Ret None
  | VInt n => Ret (Some (n * 1000))
  | VFloat v =>
      if PyFloat.is_nan v then Ret None
      else if PyFloat.ltb v (PyFloat.of_int 1000) then
        r ← PyFloat.round v;
        if PyFloat.ltb PyFloat.lit_1e_9
             (SFabs (PyFloat.sub v (PyFloat.of_int r)))
        then
          thousands ← PyFloat.round (PyFloat.mul v (PyFloat.of_int 1000));
          Ret (Some (thousands * 1000))
        else
          thousands ← PyFloat.round v;
          Ret (Some (thousands * 1000))
      else
        thousands ← PyFloat.round v;
        Ret (Some (thousands * 1000))
  | VStr _ | VOther _ =>
      let s := _norm_str x in
      if PyStr.is_empty s then Ret None
      else
        let digits := PyStr.findall_digits s in
        if bool_decide (digits = []) then Ret None
        else
          let thousands := PyStr.int_of_digits (PyStr.join "" digits) in
          Ret (Some (thousands * 1000))
  end.

Definition parse_rp (x : value) : outcome (option Z) :=
  match x with
  | VNone => Ret None
  | VBool _ => Ret None
  | VInt n => Ret (Some n)
  | VFloat v =>
      if PyFloat.is_nan v then Ret None
      else n ← PyFloat.round v; Ret (Some n)
  | VStr _ | VOther _ =>
      let s := _norm_str x in
      if PyStr.is_empty s then Ret None
      else
        let digits := PyStr.findall_digits s in
        if bool_decide (digits = []) then Ret None
        else Ret (Some (PyStr.int_of_digits (PyStr.join "" digits)))
  end.

(** ** SKU decomposer *)

Definition split_sku_addons (sku_full : string) : string * list string :=
  let parts :=
    List.filter (fun p => negb (PyStr.is_empty (PyStr.strip p)))
                (PyStr.split "+" sku_full) in
  match parts with
  | [] => ("", [])
  | p0 :: rest => (PyStr.strip p0, List.map PyStr.strip rest)
  end.

(** ** Price resolver *)

(** The [for a in addons] loop; [None] is the early [return None]. *)
Fixpoint addon_loop (addon_map : gmap string Z) (addons : list string)
         (addon_sum : Z) : option Z :=
  match addons with
  | [] => Some addon_sum
  | a :: rest =>
      let akey := _norm_key (VStr a) in
      if PyStr.is_empty akey then addon_loop addon_map rest addon_sum
      else
        match addon_map !! akey with
        | None => None
        | Some v => addon_loop addon_map rest (addon_sum + v)
        end
  end.

Definition compute_final_price (sku_full : string)
           (pricelist_map addon_map : gmap string Z) (diskon_rp : Z)
  : option Z :=
  let '(base, addons) := split_sku_addons sku_full in
  let base_key := _norm_key (VStr base) in
  if PyStr.is_empty base_key then None
  else
    match pricelist_map !! base_key with
    | None => None
    | Some base_price =>
        match addon_loop addon_map addons 0 with
        | None => None
        | Some addon_sum =>
            let final_price := base_price + addon_sum - diskon_rp in
            Some (if final_price <? 0 then 0 else final_price)
        end
    end.


(** ** Worksheets *)

(** An openpyxl worksheet as the code reads it: [ws.max_row],
    [ws.max_column] and [ws.cell(r, c).value], which is [None] wherever no
    cell was stored. *)
Record Worksheet : Type := MkSheet {
  max_row : Z;
  max_column : Z;
  cell_value : Z -> Z -> value
}.

(** A workbook is the list of its sheets, in [wb.sheetnames] order. *)
Definition Workbook : Type := list Worksheet.

(** [openpyxl.load_workbook(BytesIO(b), data_only=d)]. *)
Variable load_workbook : bool -> list Byte.byte -> outcome Workbook.

(** [range(lo, hi)] *)
Definition py_range (lo hi : Z) : list Z :=
  List.map (fun i => lo + Z.of_nat i) (seq 0 (Z.to_nat (hi - lo))).

Definition get_first_sheet (wb : Workbook) : outcome Worksheet :=
  match wb with
  | ws :: _ => Ret ws
  | [] => Raise (MkExn IndexError "list index out of range")
  end.

(** ** Header locator *)

Definition row_text (ws : Worksheet) (r : Z) : string :=
  let row_vals :=
    List.map (fun c => PyStr.upper (_norm_str (cell_value ws r c)))
             (py_range 1 (max_column ws + 1)) in
  PyStr.join " | " row_vals.

(** The body of the scan for one row: the [ok] flag after the inner loop. *)
Definition row_ok (ws : Worksheet) (must_have_any : list (list string))
           (r : Z) : bool :=
  forallb (fun group =>
             existsb (fun k => PyStr.contains (PyStr.upper k) (row_text ws r))
                     group)
          must_have_any.

Definition find_header_row (ws : Worksheet) (must_have_any : list (list string))
           (scan_rows : Z) : option Z :=
  List.find (row_ok ws must_have_any)
            (py_range 1 (Z.min scan_rows (max_row ws) + 1)).

(** ** Insertion-ordered dictionaries *)

(** [d[k] = v] on a Python [dict]: an existing key keeps its position. *)
Fixpoint dict_set (d : list (string * Z)) (k : string) (v : Z)
  : list (string * Z) :=
  match d with
  | [] => [(k, v)]
  | (k', v') :: rest =>
      if String.eqb k' k then (k', v) :: rest
      else (k', v') :: dict_set rest k v
  end.

(** [d.get(k)] *)
Fixpoint dict_get (d : list (string * Z)) (k : string) : option Z :=
  match d with
  | [] => None
  | (k', v') :: rest => if String.eqb k' k then Some v' else dict_get rest k
  end.

Definition map_headers (ws : Worksheet) (header_row : Z) : list (string * Z) :=
  fold_left (fun headers c =>
               let v := cell_value ws header_row c in
               let key := _norm_key v in
               if PyStr.is_empty key then headers else dict_set headers key c)
            (py_range 1 (max_column ws + 1)) [].

(** Truth value of an [Optional[int]]: [None] and [0] are false. *)
Definition truthy (o : option Z) : bool :=
  match o with
  | Some n => negb (n =? 0)
  | None => false
  end.

(** [a or b] on optional integers. *)
Definition py_or (a b : option Z) : option Z := if truthy a then a else b.

(** ** Pricelist loader *)

(** The row loop of [load_pricelist_map]. *)
Fixpoint pricelist_rows (ws : Worksheet) (sku_col m4_col : Z) (rows : list Z)
         (pl_map : gmap string Z) : outcome (gmap string Z) :=
  match rows with
  | [] => Ret pl_map
  | r :: rest =>
      let sku := cell_value ws r sku_col in
      match sku with
      | VNone => pricelist_rows ws sku_col m4_col rest pl_map
      | _ =>
          let sku_key := _norm_key sku in
          if PyStr.is_empty sku_key || String.eqb sku_key "TOTAL"
          then pricelist_rows ws sku_col m4_col rest pl_map
          else
            let price_raw := cell_value ws r m4_col in
            price_rp ← parse_thousands_to_rp price_raw;
            match price_rp with
            | None => pricelist_rows ws sku_col m4_col rest pl_map
            | Some p =>
                pricelist_rows ws sku_col m4_col rest (<[sku_key := p]> pl_map)
            end
      end
  end.

(** [sku_col = hdr.get("KODEBARANG") or hdr.get("KODE BARANG")] *)
Definition pricelist_sku_col (hdr : list (string * Z)) : option Z :=
  py_or (dict_get hdr "KODEBARANG") (dict_get hdr "KODE BARANG").

(** [m4_col = hdr.get("M4")] *)
Definition pricelist_m4_col (hdr : list (string * Z)) : option Z :=
  dict_get hdr "M4".

(** The part of [load_pricelist_map] after the first sheet is open. *)
Definition pricelist_of_sheet (ws : Worksheet) : outcome (gmap string Z * Z) :=
  match find_header_row ws [["KODEBARANG"; "KODE BARANG"]; ["M4"]] 80 with
  | None =>
      Raise (MkExn ValueError
        "Header Pricelist tidak ketemu. Pastikan ada kolom KODEBARANG & M4.")
  | Some header_row =>
      if header_row =? 0 then
        Raise (MkExn ValueError
          "Header Pricelist tidak ketemu. Pastikan ada kolom KODEBARANG & M4.")
      else
        let hdr := map_headers ws header_row in
        match pricelist_sku_col hdr, pricelist_m4_col hdr with
        | Some sku_col, Some m4_col =>
            if (sku_col =? 0) || (m4_col =? 0) then
              Raise (MkExn ValueError
                "Kolom SKU/Price di Pricelist tidak ketemu (butuh KODEBARANG/KODE BARANG & M4).")
            else
              pl_map ← pricelist_rows ws sku_col m4_col
                         (py_range (header_row + 1) (max_row ws + 1)) ∅;
              if bool_decide (pl_map = ∅) then
                Raise (MkExn ValueError
                  "Pricelist kebaca, tapi mapping KODEBARANG -> M4 kosong. Cek isi file Pricelist.")
              else Ret (pl_map, header_row)
        | _, _ =>
            Raise (MkExn ValueError
              "Kolom SKU/Price di Pricelist tidak ketemu (butuh KODEBARANG/KODE BARANG & M4).")
        end
  end.

Definition load_pricelist_map (pl_bytes : list Byte.byte)
  : outcome (gmap string Z * Z) :=
  wb ← load_workbook true pl_bytes;
  ws ← get_first_sheet wb;
  pricelist_of_sheet ws.

(** ** Addon loader *)

(** [for k in keys: if k in hdr: col = hdr[k]; break], starting from [None]. *)
Fixpoint first_present (hdr : list (string * Z)) (keys : list string)
  : option Z :=
  match keys with
  | [] => None
  | k :: rest =>
      match dict_get hdr k with
      | Some c => Some c
      | None => first_present hdr rest
      end
  end.

(** The fallback scan over [hdr.items()]. *)
Fixpoint fallback_code_col (items : list (string * Z)) : option Z :=
  match items with
  | [] => None
  | (hk, col) :: rest =>
      if existsb (fun x => PyStr.contains x hk)
                 ["KODE"; "VARIAN"; "VARIASI"; "STANDARISASI"; "ADDON"]
      then Some col
      else fallback_code_col rest
  end.

(** The price column: the first of [HARGA], [PRICE] among the headers. *)
Definition addon_price_col (hdr : list (string * Z)) : option Z :=
  first_present hdr ["HARGA"; "PRICE"].

(** The code column: the first exact candidate, else the fallback scan. *)
Definition addon_code_col (hdr : list (string * Z)) : option Z :=
  let code_col :=
    first_present hdr
      ["ADDON_CODE"; "KODE"; "KODE ADDON";
       "STANDARISASI KODE SKU DI VARIAN";
       "STANDARISASI KODE SKU DI VARIASI";
       "KODE VARIAN"; "KODE VARIASI"] in
  if truthy code_col then code_col
  else
    match fallback_code_col hdr with
    | Some col => Some col
    | None => code_col
    end.

(** The row loop of [load_addon_map]. *)
Fixpoint addon_rows (ws : Worksheet) (code_col price_col : Z) (rows : list Z)
         (addon_map : gmap string Z) : outcome (gmap string Z) :=
  match rows with
  | [] => Ret addon_map
  | r :: rest =>
      let code := cell_value ws r code_col in
      match code with
      | VNone => addon_rows ws code_col price_col rest addon_map
      | _ =>
          let code_key := _norm_key code in
          if PyStr.is_empty code_key
          then addon_rows ws code_col price_col rest addon_map
          else
            let price_raw := cell_value ws r price_col in
            price_rp ← parse_thousands_to_rp price_raw;
            match price_rp with
            | None => addon_rows ws code_col price_col rest addon_map
            | Some p =>
                addon_rows ws code_col price_col rest
                           (<[code_key := p]> addon_map)
            end
      end
  end.

(** The part of [load_addon_map] after the first sheet is open. *)
Definition addon_of_sheet (ws : Worksheet) : outcome (gmap string Z) :=
  match find_header_row ws
          [["HARGA"; "PRICE"]; ["KODE"; "VARIAN"; "STANDARISASI"; "ADDON"]] 80
  with
  | None =>
      Raise (MkExn ValueError
        "Header Addon Mapping tidak ketemu. Pastikan ada kolom kode addon & harga.")
  | Some header_row =>
      if header_row =? 0 then
        Raise (MkExn ValueError
          "Header Addon Mapping tidak ketemu. Pastikan ada kolom kode addon & harga.")
      else
        let hdr := map_headers ws header_row in
        match addon_code_col hdr, addon_price_col hdr with
        | Some code_col, Some price_col =>
            if (code_col =? 0) || (price_col =? 0) then
              Raise (MkExn ValueError
                "Kolom addon_code / harga tidak ketemu di Addon Mapping.")
            else
              addon_rows ws code_col price_col
                         (py_range (header_row + 1) (max_row ws + 1)) ∅
        | _, _ =>
            Raise (MkExn ValueError
              "Kolom addon_code / harga tidak ketemu di Addon Mapping.")
        end
  end.

Definition load_addon_map (addon_bytes : list Byte.byte)
  : outcome (gmap string Z) :=
  wb ← load_workbook true addon_bytes;
  ws ← get_first_sheet wb;
  addon_of_sheet ws.

(** ** Batch reconciler *)

Record Issue : Type := MkIssue {
  issue_file : string;
  issue_row : string;
  issue_sku_full : string;
  issue_base_sku : string;
  issue_reason : string
}.

Definition DATA_START_ROW : Z := 7.
Definition SKU_COL : Z := 6.
Definition PRICE_COL : Z := 7.

(** A row of the output sheet: the values of columns 1, 2, ... *)
Definition OutRow : Type := list value.

(** [row.cell(c).value]: [None] past the last stored cell. *)
Definition out_cell (row : OutRow) (c : Z) : value :=
  if c <? 1 then VNone else nth (Z.to_nat (c - 1)) row VNone.

(** [out_ws.cell(write_row, c).value = v] on the row being written: a cell
    past the end is created, the gap reads [None]. *)
Definition set_cell (row : OutRow) (c : Z) (v : value) : OutRow :=
  let i := Z.to_nat (c - 1) in
  let padded := row ++ repeat VNone (S i - length row) in
  <[i := v]> padded.

(** The mutable part of a run.  [out_data] holds the rows of the output
    sheet from [DATA_START_ROW] on (the rows the template had there were
    deleted before the first file is read). *)
Record run_state : Type := MkState {
  out_data : list OutRow;
  write_row : Z;
  total_updated : Z
}.

(** [out_ws.insert_rows(write_row, 1)] followed by the writes to that row. *)
Definition insert_row (st : run_state) (row : OutRow) : list OutRow :=
  let i := Z.to_nat (write_row st - DATA_START_ROW) in
  take i (out_data st) ++ row :: drop i (out_data st).

(** One iteration of the row loop.  The second component is the exception
    that left the loop, if any; the state is the one reached by then. *)
Definition process_row (ws : Worksheet) (pricelist_map addon_map : gmap string Z)
           (diskon_rp : Z) (max_col : Z) (r : Z) (st : run_state)
  : run_state * option exn :=
  let sku_full := cell_value ws r SKU_COL in
  let sku_full_s := _norm_str sku_full in
  if PyStr.is_empty sku_full_s then (st, None)
  else
    let old_price := cell_value ws r PRICE_COL in
    match parse_rp old_price with
    | Raise e => (st, Some e)
    | Ret old_price_rp =>
        match compute_final_price sku_full_s pricelist_map addon_map diskon_rp with
        | None => (st, None)
        | Some new_price =>
            if match old_price_rp with
               | Some old => old =? new_price
               | None => false
               end
            then (st, None)
            else
              let copied :=
                List.map (fun c => cell_value ws r c) (py_range 1 (max_col + 1)) in
              let row := set_cell copied PRICE_COL (VInt new_price) in
              (MkState (insert_row st row) (write_row st + 1)
                       (total_updated st + 1), None)
        end
    end.

Fixpoint rows_loop (ws : Worksheet) (pricelist_map addon_map : gmap string Z)
         (diskon_rp : Z) (max_col : Z) (rows : list Z) (st : run_state)
  : run_state * option exn :=
  match rows with
  | [] => (st, None)
  | r :: rest =>
      match process_row ws pricelist_map addon_map diskon_rp max_col r st with
      | (st', Some e) => (st', Some e)
      | (st', None) =>
          rows_loop ws pricelist_map addon_map diskon_rp max_col rest st'
      end
  end.

(** The [try] block for one file. *)
Definition process_file (pricelist_map addon_map : gmap string Z)
           (diskon_rp : Z) (max_col : Z) (fbytes : list Byte.byte)
           (st : run_state) : run_state * option exn :=
  match wb ← load_workbook false fbytes; get_first_sheet wb with
  | Raise e => (st, Some e)
  | Ret ws =>
      rows_loop ws pricelist_map addon_map diskon_rp max_col
                (py_range DATA_START_ROW (max_row ws + 1)) st
  end.

(** The record appended by the [except] clause; [exn_msg e] is [str(e)]. *)
Definition file_issue (fname : string) (e : exn) : Issue :=
  MkIssue fname "" "" "" ("Gagal proses file: " +:+ exn_msg e).

Definition no_change_issue : Issue :=
  MkIssue "" "" "" ""
    "Tidak ada baris yang berubah (semua cocok / tidak ada yang bisa diupdate).".

Fixpoint files_loop (pricelist_map addon_map : gmap string Z) (diskon_rp : Z)
         (max_col : Z) (mass_files : list (string * list Byte.byte))
         (st : run_state) (issues : list Issue) : run_state * list Issue :=
  match mass_files with
  | [] => (st, issues)
  | (fname, fbytes) :: rest =>
      match process_file pricelist_map addon_map diskon_rp max_col fbytes st with
      | (st', Some e) =>
          files_loop pricelist_map addon_map diskon_rp max_col rest st'
                     (issues ++ [file_issue fname e])
      | (st', None) =>
          files_loop pricelist_map addon_map diskon_rp max_col rest st' issues
      end
  end.

(** What the run returns: the output workbook, given as the template
    workbook (the first mass file, whose first sheet lost its rows from
    [DATA_START_ROW] on) and the rows written there, and the issues table.
    Serialising the workbook and copying cell styles are openpyxl's and are
    not modelled. *)
Record Output : Type := MkOutput {
  out_template : Workbook;
  out_rows : list OutRow;
  out_issues : list Issue
}.

(** Truth value of [Optional[bytes]]. *)
Definition bytes_truthy (b : option (list Byte.byte)) : bool :=
  match b with
  | Some (_ :: _) => true
  | _ => false
  end.

Definition process_shopee_files (mass_files : list (string * list Byte.byte))
           (pl_bytes : list Byte.byte) (addon_bytes : option (list Byte.byte))
           (diskon_rp : Z) : outcome Output :=
  '(pricelist_map, _) ← load_pricelist_map pl_bytes;
  addon_map ← (if bytes_truthy addon_bytes
               then load_addon_map (default [] addon_bytes)
               else Ret ∅);
  '(first_name, first_bytes) ←
     match mass_files with
     | f :: _ => Ret f
     | [] => Raise (MkExn IndexError "list index out of range")
     end;
  out_wb ← load_workbook false first_bytes;
  out_ws ← get_first_sheet out_wb;
  tmp_wb ← load_workbook false first_bytes;
  tmp_ws ← get_first_sheet tmp_wb;
  let max_col := max_column tmp_ws in
  let st0 := MkState [] DATA_START_ROW 0 in
  let '(st, issues) :=
    files_loop pricelist_map addon_map diskon_rp max_col mass_files st0 [] in
  let issues :=
    if total_updated st =? 0 then issues ++ [no_change_issue] else issues in
  Ret (MkOutput out_wb (out_data st) issues).

(** ** The caller *)

(** What the page shows after the button is pressed. *)
Inductive Page : Type :=
| PageError (msg : string)
| PageDone (out : Output).

(** The body of [if run:], with the uploads already read. *)
Definition on_run (mass_uploads : list (string * list Byte.byte))
           (pl_upload addon_upload : option (list Byte.byte)) (diskon_rp : Z)
  : Page :=
  match mass_uploads with
  | [] => PageError "Mass Update wajib diupload."
  | _ =>
      match pl_upload with
      | None => PageError "Pricelist wajib diupload."
      | Some pl_bytes =>
          match process_shopee_files mass_uploads pl_bytes addon_upload diskon_rp
          with
          | Ret out => PageDone out
          | Raise e => PageError (exn_msg e)
          end
      end
  end.

(** * Specification vocabulary *)

(** The sum of a list of addon prices. *)
Definition sum_prices (l : list Z) : Z := foldr Z.add 0 l.



(** [value < 1000] *)
Definition below_1000 (v : spec_float) : bool :=
  PyFloat.ltb v (PyFloat.of_int 1000).

(** [abs(value - round(value)) > 1e-9] *)
Definition fraction_nontrivial (v : spec_float) : bool :=
  match PyFloat.round v with
  | Ret r =>
      PyFloat.ltb PyFloat.lit_1e_9 (SFabs (PyFloat.sub v (PyFloat.of_int r)))
  | Raise _ => false
  end.


(** The row's concatenated cell text: the trimmed texts of the cells of
    columns 1 to [max_column], joined by [" | "]. *)
Definition cell_text (ws : Worksheet) (r : Z) : string :=
  PyStr.join " | "
    (List.map (fun c => _norm_str (cell_value ws r c))
              (py_range 1 (max_column ws + 1))).

(** [k] occurs in [text] when case is ignored. *)
Definition occurs_ci (k text : string) : Prop :=
  ∃ pre post, PyStr.upper text = pre +:+ PyStr.upper k +:+ post.

(** Every keyword group has a member occurring in the text of row [r]. *)
Definition header_like (ws : Worksheet) (groups : list (list string)) (r : Z)
  : Prop :=
  ∀ g, g ∈ groups → ∃ k, k ∈ g ∧ occurs_ci k (cell_text ws r).

(** Row [r] contributes the entry [k := p]: its code cell is filled, the
    code normalises to the non-empty key [k], and the price cell parses
    to [p]. *)
Definition usable_row (ws : Worksheet) (code_col price_col : Z) (r : Z)
           (k : string) (p : Z) : Prop :=
  cell_value ws r code_col ≠ VNone
  ∧ _norm_key (cell_value ws r code_col) = k
  ∧ k ≠ ""
  ∧ parse_thousands_to_rp (cell_value ws r price_col) = Ret (Some p).

(** Both row loops are this one, up to the keys they skip. *)
Fixpoint load_rows (skip : string → bool) (ws : Worksheet)
         (code_col price_col : Z) (rows : list Z) (m : gmap string Z)
  : outcome (gmap string Z) :=
  match rows with
  | [] => Ret m
  | r :: rest =>
      match cell_value ws r code_col with
      | VNone => load_rows skip ws code_col price_col rest m
      | code =>
          let key := _norm_key code in
          if skip key then load_rows skip ws code_col price_col rest m
          else
            price_rp ← parse_thousands_to_rp (cell_value ws r price_col);
            match price_rp with
            | None => load_rows skip ws code_col price_col rest m
            | Some p => load_rows skip ws code_col price_col rest (<[key := p]> m)
            end
      end
  end.

(** The write cursor sits right below the rows written so far. *)
Definition cursor_ok (st : run_state) : Prop :=
  write_row st = DATA_START_ROW + Z.of_nat (length (out_data st)).

(** The state after [rows] more rows were written. *)
Definition extend (st : run_state) (rows : list OutRow) : run_state :=
  MkState (out_data st ++ rows)
          (write_row st + Z.of_nat (length rows))
          (total_updated st + Z.of_nat (length rows)).

(** The state before the first file: nothing written, cursor on row 7. *)
Definition st0 : run_state := MkState [] DATA_START_ROW 0.

(** A file processed on its own, into an empty output: the rows it
    writes and the exception that ends it, if any. *)
Definition file_rows (pl am : gmap string Z) (d max_col : Z)
           (fbytes : list Byte.byte) : list OutRow :=
  out_data (process_file pl am d max_col fbytes st0).1.

Definition file_error (pl am : gmap string Z) (d max_col : Z)
           (fbytes : list Byte.byte) : option exn :=
  (process_file pl am d max_col fbytes st0).2.

(** What one iteration writes, whatever the state: at most one row. *)
Definition row_rows (ws : Worksheet) (pl am : gmap string Z) (d max_col r : Z)
  : list OutRow :=
  out_data (process_row ws pl am d max_col r st0).1.

(** The issue a file leaves, if it fails. *)
Definition file_issues (pl am : gmap string Z) (d max_col : Z)
           (f : string * list Byte.byte) : list Issue :=
  match file_error pl am d max_col f.2 with
  | Some e => [file_issue f.1 e]
  | None => []
  end.

(** The addon map the run uses. *)
Definition addons_of (addon_bytes : option (list Byte.byte))
  : outcome (gmap string Z) :=
  if bytes_truthy addon_bytes then load_addon_map (default [] addon_bytes)
  else Ret ∅.

(** The loaders report a bad pricelist or addon table with [ValueError];
    these are the run's configuration errors. *)
Definition ConfigurationError (e : exn) : Prop := exn_kind e = ValueError.

(** The addon loop as it reads the keys of the addon codes. *)
Fixpoint key_loop (addon_map : gmap string Z) (keys : list string) (acc : Z)
  : option Z :=
  match keys with
  | [] => Some acc
  | k :: rest =>
      if PyStr.is_empty k then key_loop addon_map rest acc
      else
        match addon_map !! k with
        | None => None
        | Some v => key_loop addon_map rest (acc + v)
        end
  end.

(** Whether character [c] occurs in [s]. *)
Fixpoint has_char (c : ascii) (s : string) : bool :=
  match s with
  | EmptyString => false
  | String c' t => Ascii.eqb c' c || has_char c t
  end.



(** ** Sample workbooks *)

Definition sheet_of_rows (rows : list (list value)) : Worksheet :=
  MkSheet (Z.of_nat (length rows))
          (Z.of_nat (foldr (λ row n, Nat.max (length row) n) 0%nat rows))
          (λ r c,
             if (r <? 1) || (c <? 1) then VNone
             else nth (Z.to_nat (c - 1)) (nth (Z.to_nat (r - 1)) rows []) VNone).

Definition sample_pricelist : Worksheet :=
  sheet_of_rows
    [ [VStr "Daftar harga"];
      [VStr "KodeBarang"; VStr "Nama"; VStr "M4"];
      [VStr "base1"; VStr "Meja"; VInt 9000];
      [VStr " BASE1 "; VStr "Meja"; VInt 9300];
      [VStr "Total"; VNone; VInt 18300] ].

Definition sample_addons : Worksheet :=
  sheet_of_rows
    [ [VStr "Kode"; VStr "Harga"];
      [VStr "pc"; VInt 400];
      [VStr "PC"; VStr "500"];
      [VStr "BA"; VInt 250] ].

Definition sample_head : list (list value) := repeat [VStr "Shopee"] 6.

(** Seven columns; row 7 changes, row 8 is up to date, row 9 has an
    unknown addon. *)
Definition sample_mass_a : Worksheet :=
  sheet_of_rows
    (sample_head ++
     [ [VInt 1001; VStr "Meja"; VNone; VNone; VNone; VStr "BASE1"; VInt 9000000];
       [VInt 1002; VStr "Meja"; VNone; VNone; VNone; VStr "base1"; VInt 9300000];
       [VInt 1003; VStr "Meja"; VNone; VNone; VNone; VStr "BASE1+XX"; VInt 1] ]).

(** Eight columns; row 7 has no price yet. *)
Definition sample_mass_b : Worksheet :=
  sheet_of_rows
    (sample_head ++
     [ [VInt 2001; VStr "Kursi"; VNone; VNone; VNone; VStr "base1 + pc"; VNone;
        VStr "catatan"] ]).

(** A loader that knows four files by their single byte. *)
Definition sample_loader (data_only : bool) (b : list Byte.byte)
  : outcome Workbook :=
  match b with
  | [Byte.x01] => Ret [sample_pricelist]
  | [Byte.x02] => Ret [sample_addons]
  | [Byte.x0a] => Ret [sample_mass_a]
  | [Byte.x0b] => Ret [sample_mass_b]
  | _ => Raise (MkExn LibraryError "File is not a zip file")
  end.

(** The float nearest to 23.699. *)
Definition sample_23_699 : spec_float :=
  S754_finite false 6670675473065837 (-48).

(** The float -5000.5. *)
Definition sample_neg_5000_5 : spec_float :=
  S754_finite true 5498107894693888 (-40).

(** [repr] at the special values.  The sample workbooks hold no float in
    a cell whose text is read, so the last case is never consulted. *)
Definition sample_repr (x : spec_float) : string :=
  match x with
  | S754_nan => "nan"
  | S754_infinity false => "inf"
  | S754_infinity true => "-inf"
  | S754_zero false => "0.0"
  | S754_zero true => "-0.0"
  | S754_finite _ _ _ => "float"
  end.

(** The maps the sample pricelist and addon table load to. *)
Definition sample_pl : gmap string Z := {["BASE1" := 9300000]}.

Definition sample_am : gmap string Z := <["PC" := 500000]> {["BA" := 250000]}.

(** Row 7 changes, row 8 holds an infinite price, row 9 would change. *)
Definition sample_mass_inf : Worksheet :=
  sheet_of_rows
    (sample_head ++
     [ [VInt 3001; VStr "Meja"; VNone; VNone; VNone; VStr "BASE1"; VInt 1];
       [VInt 3002; VStr "Meja"; VNone; VNone; VNone; VStr "BASE1";
        VFloat (S754_infinity false)];
       [VInt 3003; VStr "Meja"; VNone; VNone; VNone; VStr "BASE1"; VInt 2] ]).

(** [sample_loader] with one more file. *)
Definition sample_loader_inf (data_only : bool) (b : list Byte.byte)
  : outcome Workbook :=
  match b with
  | [Byte.x0c] => Ret [sample_mass_inf]
  | _ => sample_loader data_only b
  end.

(** The mass files of a sample run and what the run returns for them. *)
Definition sample_files : list (string * list Byte.byte) :=
  [("inf.xlsx", [Byte.x0c]); ("bad.xlsx", [Byte.xff]); ("a.xlsx", [Byte.x0a])].

Definition sample_row_inf : OutRow :=
  [VInt 3001; VStr "Meja"; VNone; VNone; VNone; VStr "BASE1"; VInt 9300000].

Definition sample_row_a : OutRow :=
  [VInt 1001; VStr "Meja"; VNone; VNone; VNone; VStr "BASE1"; VInt 9300000].

Definition sample_out : Output :=
  MkOutput [sample_mass_inf] [sample_row_inf; sample_row_a]
    [ MkIssue "inf.xlsx" "" "" ""
        "Gagal proses file: cannot convert float infinity to integer";
      MkIssue "bad.xlsx" "" "" "" "Gagal proses file: File is not a zip file" ].

(** A header row that names its first and third column alike. *)
Definition sample_twice : Worksheet :=
  sheet_of_rows [ [VStr "Kode"; VStr "Harga"; VStr " kode "] ].

(** * Properties *)

(** ** Text helpers *)

Lemma is_empty_true (s : string) : PyStr.is_empty s = true ↔ s = "".
Proof. destruct s; simpl; split; congruence. Qed.

Lemma is_empty_false (s : string) : PyStr.is_empty s = false ↔ s ≠ "".
Proof. destruct s; simpl; split; congruence. Qed.

Lemma is_empty_upper (s : string) :
  PyStr.is_empty (PyStr.upper s) = PyStr.is_empty s.
Proof. destruct s; reflexivity. Qed.

Lemma lstrip_head (s : string) :
  PyStr.lstrip s = "" ∨
  ∃ c t, PyStr.lstrip s = String c t ∧ PyStr.is_space c = false.
Proof.
  induction s as [|c t IH]; simpl; [by left|].
  destruct (PyStr.is_space c) eqn:Hc; [exact IH|].
  right. by exists c, t.
Qed.

Lemma rstrip_cons_nonspace (c : ascii) (t : string) :
  PyStr.is_space c = false →
  PyStr.rstrip (String c t) = String c (PyStr.rstrip t).
Proof. intros Hc. simpl. by rewrite Hc. Qed.

Lemma rstrip_idem (s : string) : PyStr.rstrip (PyStr.rstrip s) = PyStr.rstrip s.
Proof.
  induction s as [|c t IH]; simpl; [done|].
  destruct (PyStr.is_space c && PyStr.is_empty (PyStr.rstrip t)) eqn:Hc;
    simpl; [done|].
  by rewrite IH, Hc.
Qed.

Lemma strip_head (s : string) :
  PyStr.strip s = "" ∨
  ∃ c t, PyStr.strip s = String c t ∧ PyStr.is_space c = false.
Proof.
  unfold PyStr.strip.
  destruct (lstrip_head s) as [->|(c & t & -> & Hc)]; [by left|].
  right. exists c, (PyStr.rstrip t). by rewrite rstrip_cons_nonspace.
Qed.

Lemma strip_idem (s : string) : PyStr.strip (PyStr.strip s) = PyStr.strip s.
Proof.
  destruct (strip_head s) as [->|(c & t & Hs & Hc)]; [done|].
  assert (PyStr.rstrip (PyStr.strip s) = PyStr.strip s) as Hr
    by apply rstrip_idem.
  rewrite Hs in *. unfold PyStr.strip at 1. simpl PyStr.lstrip.
  by rewrite Hc.
Qed.

(** On text, the key is the upper-cased stripped text: the second [strip]
    of [_norm_key] changes nothing. *)
Lemma norm_key_str (s : string) :
  _norm_key (VStr s) = PyStr.upper (PyStr.strip s).
Proof. unfold _norm_key. simpl. by rewrite strip_idem. Qed.

(** ** SKU decomposer *)

(** No addon code returned by the decomposer normalises to the empty key. *)
Lemma split_sku_addons_keys (sku : string) :
  Forall (λ a, _norm_key (VStr a) ≠ "") (split_sku_addons sku).2.
Proof.
  unfold split_sku_addons.
  set (keep := λ p, negb (PyStr.is_empty (PyStr.strip p))).
  assert (Forall (λ p, keep p = true) (List.filter keep (PyStr.split "+" sku)))
    as Hall.
  { apply List.Forall_forall. intros p Hp. by apply List.filter_In in Hp as [_ ?]. }
  destruct (List.filter keep (PyStr.split "+" sku)) as [|p0 rest]; simpl;
    [constructor|].
  apply Forall_cons in Hall as [_ Hrest].
  induction Hrest as [|p rest Hp _ IH]; simpl; constructor; [|exact IH].
  rewrite norm_key_str, strip_idem. apply is_empty_false.
  rewrite is_empty_upper. unfold keep in Hp. by destruct (PyStr.is_empty _).
Qed.

(** ** Price resolver *)

Lemma addon_loop_missing (am : gmap string Z) (addons : list string)
      (acc : Z) (a : string) :
  a ∈ addons → _norm_key (VStr a) ≠ "" → am !! _norm_key (VStr a) = None →
  addon_loop am addons acc = None.
Proof.
  intros Hin Hne Hnone. revert acc.
  induction addons as [|b rest IH]; intros acc; [by apply elem_of_nil in Hin|].
  simpl. apply elem_of_cons in Hin as [<-|Hin].
  - apply is_empty_false in Hne. by rewrite Hne, Hnone.
  - destruct (PyStr.is_empty _); [by apply IH|].
    destruct (am !! _norm_key (VStr b)); [by apply IH|done].
Qed.

Lemma addon_loop_sum (am : gmap string Z) (addons : list string) (acc s : Z) :
  Forall (λ a, _norm_key (VStr a) ≠ "") addons →
  addon_loop am addons acc = Some s →
  ∃ prices, Forall2 (λ a v, am !! _norm_key (VStr a) = Some v) addons prices
            ∧ s = acc + sum_prices prices.
Proof.
  intros Hall. revert acc.
  induction Hall as [|a rest Ha _ IH]; intros acc; simpl.
  - intros [= <-]. exists []. split; [constructor|simpl; lia].
  - apply is_empty_false in Ha. rewrite Ha.
    destruct (am !! _norm_key (VStr a)) as [v|] eqn:Hv; [|done].
    intros (prices & Hp & ->)%IH. exists (v :: prices).
    split; [by constructor|simpl; lia].
Qed.

(** C1. If some addon code of a composite SKU has a non-empty normalised
    key that the addon map lacks, [compute_final_price] returns [None],
    whatever the pricelist holds for the base and whatever the other
    addons resolve to: there is no partial price. *)
Theorem compute_final_price_strict (sku : string) (pl am : gmap string Z)
        (d : Z) (a : string) :
  a ∈ (split_sku_addons sku).2 →
  _norm_key (VStr a) ≠ "" →
  am !! _norm_key (VStr a) = None →
  compute_final_price sku pl am d = None.
Proof.
  intros Hin Hne Hnone. unfold compute_final_price.
  destruct (split_sku_addons sku) as [base addons]; simpl in Hin.
  destruct (PyStr.is_empty _); [done|].
  destruct (pl !! _); [|done].
  by rewrite (addon_loop_missing am addons 0 a).
Qed.

(** C2. Whenever [compute_final_price] returns a price, the base key is in
    the pricelist, every addon code is in the addon map, and the price is
    base + sum of the addon prices - discount, or 0 when that is negative. *)
Theorem compute_final_price_value (sku : string) (pl am : gmap string Z)
        (d p : Z) :
  compute_final_price sku pl am d = Some p →
  ∃ base_price addon_prices,
    pl !! _norm_key (VStr (split_sku_addons sku).1) = Some base_price
    ∧ Forall2 (λ a v, am !! _norm_key (VStr a) = Some v)
              (split_sku_addons sku).2 addon_prices
    ∧ p = Z.max 0 (base_price + sum_prices addon_prices - d)
    ∧ 0 ≤ p
    ∧ (base_price + sum_prices addon_prices < d → p = 0).
Proof.
  unfold compute_final_price.
  pose proof (split_sku_addons_keys sku) as Hkeys.
  destruct (split_sku_addons sku) as [base addons]; simpl in *.
  destruct (PyStr.is_empty _); [done|].
  destruct (pl !! _) as [bp|]; [|done].
  destruct (addon_loop am addons 0) as [s|] eqn:Hloop; [|done].
  apply addon_loop_sum in Hloop as (prices & Hres & ->); [|done].
  intros [= <-]. exists bp, prices.
  repeat split; try done; destruct (Z.ltb_spec (bp + (0 + sum_prices prices) - d) 0); lia.
Qed.

(** ** Digit runs *)













(** ** Value parsers on text *)




(** ** Floats *)





(** ** Binary64 facts *)

Lemma digits2_pos_size (p : positive) : digits2_pos p = Pos.size p.
Proof. induction p as [p IH|p IH|]; simpl; by rewrite ?IH. Qed.

Lemma digits2_pos_log2 (p : positive) :
  Z.pos (digits2_pos p) = Z.log2 (Z.pos p) + 1.
Proof.
  rewrite digits2_pos_size.
  destruct p as [p|p|]; simpl; rewrite ?Pos2Z.inj_succ; lia.
Qed.

Lemma Zdigits2_le (x k : Z) : 0 ≤ k → 0 ≤ x < 2 ^ k → Zdigits2 x ≤ k.
Proof.
  intros Hk [Hx Hlt]. destruct x as [|p|p]; simpl; [done| |lia].
  rewrite digits2_pos_log2.
  assert (Z.log2 (Z.pos p) < k) by (apply Z.log2_lt_pow2; lia). lia.
Qed.

Lemma digits2_pos_gt (p : positive) : Z.pos p < 2 ^ Z.pos (digits2_pos p).
Proof.
  rewrite digits2_pos_log2.
  pose proof (Z.log2_spec (Z.pos p) ltac:(lia)) as [_ H].
  by rewrite <- Z.add_1_r in H.
Qed.

Lemma iter_pos_invariant {A : Type} (P : A → Prop) (f : A → A) :
  (∀ x, P x → P (f x)) → ∀ p x, P x → P (SpecFloat.iter_pos f p x).
Proof.
  intros Hf p. induction p as [p IH|p IH|]; intros x Hx; simpl; auto.
Qed.

Lemma shr_1_bounds (m0 : Z) (mrs : shr_record) :
  0 ≤ shr_m mrs ≤ m0 → 0 ≤ shr_m (shr_1 mrs) ≤ m0.
Proof.
  destruct mrs as [m r s]. simpl.
  destruct m as [|[p|p|]|[p|p|]]; simpl; lia.
Qed.

Lemma shr_bounds (mrs : shr_record) (e n : Z) :
  0 ≤ shr_m mrs →
  0 ≤ shr_m (shr mrs e n).1 ≤ shr_m mrs ∧ (shr mrs e n).2 = e + Z.max 0 n.
Proof.
  intros Hm. destruct n as [|p|p]; simpl; [split; lia| |split; lia].
  split; [|lia].
  apply (iter_pos_invariant (λ x, 0 ≤ shr_m x ≤ shr_m mrs)); [|lia].
  intros x. apply shr_1_bounds.
Qed.

Lemma shr_m_of_loc (m : Z) (l : location) : shr_m (shr_record_of_loc m l) = m.
Proof. by destruct l as [|[]]. Qed.

Lemma shr_fexp_bounds (m e : Z) (l : location) :
  0 ≤ m →
  0 ≤ shr_m (shr_fexp PyFloat.prec PyFloat.emax m e l).1 ≤ m
  ∧ (shr_fexp PyFloat.prec PyFloat.emax m e l).2
    = Z.max e (fexp PyFloat.prec PyFloat.emax (Zdigits2 m + e)).
Proof.
  intros Hm. unfold shr_fexp.
  pose proof (shr_bounds (shr_record_of_loc m l) e
                (fexp PyFloat.prec PyFloat.emax (Zdigits2 m + e) - e)) as H.
  rewrite shr_m_of_loc in H. destruct (H Hm) as [H1 H2].
  split; [done|]. rewrite H2. lia.
Qed.

Lemma round_nearest_even_bounds (m : Z) (l : location) :
  0 ≤ m → 0 ≤ round_nearest_even m l ≤ m + 1.
Proof.
  intros Hm. destruct l as [|[]]; simpl; try lia. destruct (Z.even m); lia.
Qed.

(** Rounding a mantissa below [2^k], with [k] small, at an exponent that
    is not positive gives a zero or a finite number, never an infinity. *)
Lemma binary_round_aux_finite (sx : bool) (mx : positive) (ex k : Z) :
  0 ≤ k → Z.pos mx < 2 ^ k → ex ≤ 0 → 2 * k + 1 ≤ 971 →
  match binary_round_aux PyFloat.prec PyFloat.emax sx (Z.pos mx) ex loc_Exact
  with
  | S754_zero _ | S754_finite _ _ _ => True
  | _ => False
  end.
Proof.
  intros Hk Hmx Hex Hsmall. unfold binary_round_aux.
  pose proof (shr_fexp_bounds (Z.pos mx) ex loc_Exact ltac:(lia)) as [Hm1 He1].
  destruct (shr_fexp _ _ (Z.pos mx) ex loc_Exact) as [mrs' e']. simpl in *.
  pose proof (round_nearest_even_bounds (shr_m mrs') (loc_of_shr_record mrs')
                ltac:(lia)) as Hm2.
  set (m2 := round_nearest_even _ _) in *. clearbody m2.
  pose proof (shr_fexp_bounds m2 e' loc_Exact ltac:(lia)) as [Hm3 He3].
  destruct (shr_fexp _ _ m2 e' loc_Exact) as [mrs'' e'']. simpl in *.
  assert (Zdigits2 (Z.pos mx) ≤ k) as Hd1 by (apply Zdigits2_le; lia).
  assert (Zdigits2 m2 ≤ k + 1) as Hd2.
  { apply Zdigits2_le; [lia|]. split; [lia|].
    rewrite Z.pow_add_r, Z.pow_1_r by lia.
    assert (0 < 2 ^ k) by (apply Z.pow_pos_nonneg; lia).
    clear He1 He3 Hd1. lia. }
  unfold fexp, emin, PyFloat.prec, PyFloat.emax in *.
  destruct (shr_m mrs'') as [|p|p]; [done| |lia].
  destruct (Z.leb_spec e'' (1024 - 53)); [done|]. cbn [Zdigits2] in Hd1. lia.
Qed.

Lemma iter_pos_iter {A : Type} (f : A → A) (p : positive) (x : A) :
  SpecFloat.iter_pos f p x = Pos.iter f x p.
Proof.
  revert x. induction p as [p IH|p IH|]; intros x; simpl.
  - by rewrite !IH, !Pos.iter_swap.
  - by rewrite !IH.
  - done.
Qed.

Lemma digits2_pos_shift (m p : positive) :
  digits2_pos (Pos.iter xO m p) = (digits2_pos m + p)%positive.
Proof.
  induction p as [|p IH] using Pos.peano_ind.
  - simpl. lia.
  - rewrite Pos.iter_succ. simpl. rewrite IH. lia.
Qed.

Lemma shr_shift (m p : positive) :
  Pos.iter shr_1 (Build_shr_record (Z.pos (Pos.iter xO m p)) false false) p
  = Build_shr_record (Z.pos m) false false.
Proof.
  induction p as [|p IH] using Pos.peano_ind; [done|].
  by rewrite Pos.iter_succ_r, Pos.iter_succ.
Qed.

Lemma pos_shift_pow (m p : positive) :
  Z.pos (Pos.iter xO m p) = Z.pos m * 2 ^ Z.pos p.
Proof.
  induction p as [|p IH] using Pos.peano_ind; [simpl; lia|].
  rewrite Pos.iter_succ, Pos2Z.inj_succ, Z.pow_succ_r by lia.
  rewrite Pos2Z.inj_xO, IH. lia.
Qed.

(** A float with an exponent that is not negative is an integer, and
    [float] of that integer is the float itself. *)
Lemma of_int_exact (s : bool) (m : positive) (e : Z) :
  bounded PyFloat.prec PyFloat.emax m e = true → 0 ≤ e →
  PyFloat.of_int (cond_Zopp s (Z.pos m * 2 ^ e)) = S754_finite s m e.
Proof.
  unfold bounded, canonical_mantissa.
  intros [Hcan%Z.eqb_eq Hmax]%andb_prop He.
  assert (∃ P, Z.pos m * 2 ^ e = Z.pos P
               ∧ Z.pos (digits2_pos P) = Z.pos (digits2_pos m) + e
               ∧ shr (Build_shr_record (Z.pos P) false false) 0 e
                 = (Build_shr_record (Z.pos m) false false, e))
    as (P & HP & HdP & Hshr).
  { destruct e as [|p|p]; [| |lia].
    - exists m. split; [lia|]. split; [lia|done].
    - exists (Pos.iter xO m p). split; [by rewrite pos_shift_pow|].
      split; [rewrite digits2_pos_shift; lia|].
      simpl. by rewrite iter_pos_iter, shr_shift. }
  rewrite HP.
  assert (PyFloat.of_int (cond_Zopp s (Z.pos P))
          = binary_round PyFloat.prec PyFloat.emax s P 0) as -> by by destruct s.
  unfold binary_round. rewrite Z.add_0_r, HdP, Hcan.
  assert (shl_align P 0 e = (P, 0)) as ->.
  { unfold shl_align. rewrite Z.sub_0_r. by destruct e. }
  unfold binary_round_aux, shr_fexp. simpl Zdigits2.
  rewrite Z.add_0_r, HdP, Hcan, Z.sub_0_r. simpl shr_record_of_loc.
  rewrite Hshr. simpl. rewrite Hcan, Z.sub_diag. simpl.
  by rewrite Hmax.
Qed.

Lemma sub_self (s : bool) (m : positive) (e : Z) :
  PyFloat.sub (S754_finite s m e) (S754_finite s m e) = S754_zero false.
Proof. unfold PyFloat.sub, SFsub. by rewrite Z.sub_diag. Qed.

(** ** The scaled parser on floats *)

Lemma bounded_mantissa (m : positive) (e : Z) :
  bounded PyFloat.prec PyFloat.emax m e = true → Z.pos m < 2 ^ 53.
Proof.
  unfold bounded, canonical_mantissa, fexp, emin, PyFloat.prec, PyFloat.emax.
  intros [Hcan%Z.eqb_eq _]%andb_prop.
  pose proof (digits2_pos_gt m) as Hm.
  assert (2 ^ Z.pos (digits2_pos m) ≤ 2 ^ 53)
    by (apply Z.pow_le_mono_r; lia).
  lia.
Qed.

(** A float with a negative exponent times 1000 does not overflow. *)
Lemma mul_1000_rounds (s : bool) (m : positive) (e : Z) :
  bounded PyFloat.prec PyFloat.emax m e = true → e < 0 →
  ∃ t, PyFloat.round (PyFloat.mul (S754_finite s m e) (PyFloat.of_int 1000))
       = Ret t.
Proof.
  intros Hm%bounded_mantissa He.
  change (PyFloat.of_int 1000) with (S754_finite false 8796093022208000 (-43)).
  unfold PyFloat.mul, SFmul.
  pose proof (binary_round_aux_finite (xorb s false)
                (m * 8796093022208000) (e + -43) 106) as H.
  destruct (binary_round_aux _ _ _ _ _ _) as [s'|s'| |s' m' e'].
  - by exists 0.
  - exfalso. apply H; [lia| |lia|lia].
    rewrite Pos2Z.inj_mul. change (2 ^ 106) with (2 ^ 53 * 2 ^ 53).
    apply Z.mul_lt_mono_nonneg; [lia|done|lia|done].
  - exfalso. apply H; [lia| |lia|lia].
    rewrite Pos2Z.inj_mul. change (2 ^ 106) with (2 ^ 53 * 2 ^ 53).
    apply Z.mul_lt_mono_nonneg; [lia|done|lia|done].
  - by eexists.
Qed.

(** A float with an exponent that is not negative has no fraction. *)
Lemma integer_fraction_trivial (s : bool) (m : positive) (e : Z) :
  bounded PyFloat.prec PyFloat.emax m e = true → 0 ≤ e →
  fraction_nontrivial (S754_finite s m e) = false.
Proof.
  intros Hb He. unfold fraction_nontrivial, PyFloat.round, PyFloat.nearest_even.
  destruct (Z.leb_spec 0 e) as [_|?]; [|lia].
  by rewrite of_int_exact, sub_self.
Qed.

(** C6 (amended). On NaN the scaled parser returns no value.  On a finite
    float [v] it returns [round(v * 1000) * 1000] when [v < 1000] (a signed
    test: every negative float passes it, whatever its magnitude) and [v]
    is more than [1e-9] away from [round(v)]; on every other finite float
    it returns [round(v) * 1000].  On an infinity it raises. *)
Theorem parse_thousands_float (v : spec_float) :
  valid_binary PyFloat.prec PyFloat.emax v = true →
  match v with
  | S754_nan => parse_thousands_to_rp (VFloat v) = Ret None
  | S754_infinity _ =>
      parse_thousands_to_rp (VFloat v)
      = Raise (MkExn OverflowError "cannot convert float infinity to integer")
  | _ =>
      ∃ r, PyFloat.round v = Ret r
           ∧ if below_1000 v && fraction_nontrivial v
             then ∃ t, PyFloat.round (PyFloat.mul v (PyFloat.of_int 1000))
                       = Ret t
                       ∧ parse_thousands_to_rp (VFloat v)
                         = Ret (Some (t * 1000))
             else parse_thousands_to_rp (VFloat v) = Ret (Some (r * 1000))
  end.
Proof.
  intros Hvalid. destruct v as [s|s| |s m e].
  - exists 0. split; [done|]. by destruct s.
  - by destruct s.
  - done.
  - simpl in Hvalid. eexists. split; [reflexivity|].
    unfold parse_thousands_to_rp, below_1000, fraction_nontrivial.
    cbn [PyFloat.is_nan PyFloat.round mbind outcome_bind].
    destruct (PyFloat.ltb (S754_finite s m e) (PyFloat.of_int 1000)); [|done].
    cbn [andb].
    destruct (PyFloat.ltb PyFloat.lit_1e_9 _) eqn:Hfrac; [|done].
    destruct (Z.ltb_spec e 0) as [He|He].
    + destruct (mul_1000_rounds s m e Hvalid He) as [t Ht].
      exists t. by rewrite Ht.
    + pose proof (integer_fraction_trivial s m e Hvalid He) as Hno.
      unfold fraction_nontrivial in Hno. cbn [PyFloat.round] in Hno.
      congruence.
Qed.

(** ** Currency amounts *)





(** ** Header locator *)

Lemma py_range_nil (lo hi : Z) : hi ≤ lo → py_range lo hi = [].
Proof. intros H. unfold py_range. by replace (Z.to_nat (hi - lo)) with 0%nat by lia. Qed.

Lemma py_range_cons (lo hi : Z) :
  lo < hi → py_range lo hi = lo :: py_range (lo + 1) hi.
Proof.
  intros H. unfold py_range.
  replace (Z.to_nat (hi - lo)) with (S (Z.to_nat (hi - (lo + 1)))) by lia.
  simpl. f_equal; [lia|].
  rewrite <- seq_shift, List.map_map. apply List.map_ext. intros i. lia.
Qed.

Lemma elem_of_py_range (lo hi r : Z) : r ∈ py_range lo hi ↔ lo ≤ r < hi.
Proof.
  unfold py_range. rewrite list_elem_of_In, List.in_map_iff. split.
  - intros (i & <- & Hi%List.in_seq). lia.
  - intros Hr. exists (Z.to_nat (r - lo)). split; [lia|]. apply List.in_seq. lia.
Qed.

(** A [for r in range(lo, hi)] scan that returns at the first hit. *)
Lemma find_py_range (f : Z → bool) (lo hi : Z) :
  match List.find f (py_range lo hi) with
  | Some r => lo ≤ r < hi ∧ f r = true ∧ ∀ r', lo ≤ r' < r → f r' = false
  | None => ∀ r, lo ≤ r < hi → f r = false
  end.
Proof.
  remember (Z.to_nat (hi - lo)) as n eqn:Hn. revert lo Hn.
  induction n as [|n IH]; intros lo Hn.
  - rewrite py_range_nil by lia. simpl. intros r Hr. lia.
  - rewrite py_range_cons by lia. simpl.
    destruct (f lo) eqn:Hlo.
    + split; [lia|]. split; [done|]. intros r' Hr'. lia.
    + specialize (IH (lo + 1) ltac:(lia)).
      destruct (List.find f (py_range (lo + 1) hi)) as [r|].
      * destruct IH as (Hr & Hfr & Hbefore). split; [lia|]. split; [done|].
        intros r' Hr'. destruct (decide (r' = lo)) as [->|]; [done|].
        apply Hbefore. lia.
      * intros r Hr. destruct (decide (r = lo)) as [->|]; [done|].
        apply IH. lia.
Qed.

Lemma upper_app (a b : string) :
  PyStr.upper (a +:+ b) = PyStr.upper a +:+ PyStr.upper b.
Proof.
  induction a as [|c t IH]; [done|].
  change (String (PyStr.upper_char c) (PyStr.upper (t +:+ b))
          = String (PyStr.upper_char c) (PyStr.upper t +:+ PyStr.upper b)).
  by rewrite IH.
Qed.

Lemma upper_join (sep : string) (l : list string) :
  PyStr.upper (PyStr.join sep l)
  = PyStr.join (PyStr.upper sep) (List.map PyStr.upper l).
Proof.
  induction l as [|x [|y r] IH]; [done..|].
  change (PyStr.upper (x +:+ sep +:+ PyStr.join sep (y :: r))
          = PyStr.upper x +:+ PyStr.upper sep
            +:+ PyStr.join (PyStr.upper sep) (List.map PyStr.upper (y :: r))).
  by rewrite !upper_app, IH.
Qed.

Lemma prefix_spec (a b : string) :
  String.prefix a b = true ↔ ∃ post, b = a +:+ post.
Proof.
  revert b. induction a as [|c t IH]; intros b; simpl.
  - split; [intros _; by exists b|intros _; by destruct b].
  - destruct b as [|c' t']; simpl; [split; [done|by intros [? ?]]|].
    destruct (ascii_dec c c') as [->|Hne].
    + rewrite IH. split; intros [post Hp]; exists post.
      * change (String c' t' = String c' (t +:+ post)). by rewrite Hp.
      * change (String c' t' = String c' (t +:+ post)) in Hp. congruence.
    + split; [done|]. intros [post Hp].
      change (String c' t' = String c (t +:+ post)) in Hp. congruence.
Qed.

Lemma contains_spec (needle hay : string) :
  PyStr.contains needle hay = true ↔ ∃ pre post, hay = pre +:+ needle +:+ post.
Proof.
  induction hay as [|c t IH]; cbn [PyStr.contains].
  - rewrite prefix_spec. split.
    + intros [post Hp]. by exists "", post.
    + intros (pre & post & Hp). destruct pre; [by exists post|done].
  - rewrite orb_true_iff, IH, prefix_spec. split.
    + intros [[post Hp]|(pre & post & Hp)].
      * by exists "", post.
      * exists (String c pre), post.
        change (String c t = String c (pre +:+ needle +:+ post)).
        by rewrite Hp.
    + intros (pre & post & Hp). destruct pre as [|c' pre].
      * left. by exists post.
      * right. exists pre, post.
        change (String c t = String c' (pre +:+ needle +:+ post)) in Hp.
        congruence.
Qed.

Lemma row_text_upper (ws : Worksheet) (r : Z) :
  row_text ws r = PyStr.upper (cell_text ws r).
Proof.
  unfold row_text, cell_text. rewrite upper_join, List.map_map. done.
Qed.

Lemma row_ok_spec (ws : Worksheet) (groups : list (list string)) (r : Z) :
  row_ok ws groups r = true ↔ header_like ws groups r.
Proof.
  unfold row_ok, header_like. rewrite List.forallb_forall.
  split; intros H g Hg.
  - apply list_elem_of_In in Hg. specialize (H g Hg).
    apply List.existsb_exists in H as (k & Hk & Hc).
    exists k. split; [by apply list_elem_of_In|].
    unfold occurs_ci. rewrite <- row_text_upper. by apply contains_spec.
  - apply list_elem_of_In in Hg. destruct (H g Hg) as (k & Hk & Hc).
    apply List.existsb_exists. exists k. split; [by apply list_elem_of_In|].
    apply contains_spec. by rewrite row_text_upper.
Qed.

(** C9. [find_header_row] returns the 1-based index of the first row,
    among rows 1 to [min scan_rows max_row], in whose concatenated cell
    text every keyword group has a member occurring with case ignored; it
    returns [None] exactly when no row of that window is such a row (the
    window ends with the sheet when the sheet is shorter). *)
Theorem find_header_row_spec (ws : Worksheet) (groups : list (list string))
        (scan_rows : Z) :
  match find_header_row ws groups scan_rows with
  | Some r =>
      1 ≤ r ≤ Z.min scan_rows (max_row ws)
      ∧ header_like ws groups r
      ∧ ∀ r', 1 ≤ r' < r → ¬ header_like ws groups r'
  | None =>
      ∀ r, 1 ≤ r ≤ Z.min scan_rows (max_row ws) → ¬ header_like ws groups r
  end.
Proof.
  unfold find_header_row.
  pose proof (find_py_range (row_ok ws groups) 1
                (Z.min scan_rows (max_row ws) + 1)) as H.
  destruct (List.find _ _) as [r|].
  - destruct H as (Hr & Hok & Hbefore). split; [lia|].
    split; [by apply row_ok_spec|].
    intros r' Hr' Hlike%row_ok_spec. by rewrite Hbefore in Hlike.
  - intros r Hr Hlike%row_ok_spec. rewrite H in Hlike; [done|lia].
Qed.

(** ** Loaders *)

Lemma py_range_split (lo hi r : Z) :
  lo ≤ r < hi → py_range lo hi = py_range lo r ++ r :: py_range (r + 1) hi.
Proof.
  intros Hr. remember (Z.to_nat (r - lo)) as n eqn:Hn. revert lo Hr Hn.
  induction n as [|n IH]; intros lo Hr Hn.
  - assert (r = lo) as -> by lia.
    rewrite (py_range_nil lo lo) by lia. simpl. apply py_range_cons. lia.
  - rewrite (py_range_cons lo hi), (py_range_cons lo r) by lia.
    simpl. f_equal. apply IH; lia.
Qed.

Lemma pricelist_rows_load_rows ws sc mc rows m :
  pricelist_rows ws sc mc rows m
  = load_rows (λ k, PyStr.is_empty k || String.eqb k "TOTAL") ws sc mc rows m.
Proof.
  revert m. induction rows as [|r rest IH]; intros m; [done|].
  simpl. destruct (cell_value ws r sc); try apply IH;
    (destruct (_ || _); [apply IH|]);
    (destruct (parse_thousands_to_rp _) as [[p|]|]; simpl; [apply IH..|done]).
Qed.

Lemma addon_rows_load_rows ws cc pc rows m :
  addon_rows ws cc pc rows m = load_rows PyStr.is_empty ws cc pc rows m.
Proof.
  revert m. induction rows as [|r rest IH]; intros m; [done|].
  simpl. destruct (cell_value ws r cc); try apply IH;
    (destruct (PyStr.is_empty _); [apply IH|]);
    (destruct (parse_thousands_to_rp _) as [[p|]|]; simpl; [apply IH..|done]).
Qed.

Section LoadRows.

Variable skip : string → bool.
Variable ws : Worksheet.
Variables code_col price_col : Z.

Lemma load_rows_app rows1 rows2 m0 m :
  load_rows skip ws code_col price_col (rows1 ++ rows2) m0 = Ret m →
  ∃ m1, load_rows skip ws code_col price_col rows1 m0 = Ret m1
        ∧ load_rows skip ws code_col price_col rows2 m1 = Ret m.
Proof.
  revert m0. induction rows1 as [|r rest IH]; intros m0; [by exists m0|].
  simpl. destruct (cell_value ws r code_col); try apply IH;
    (destruct (skip _); [apply IH|]);
    (destruct (parse_thousands_to_rp _) as [[p|]|]; simpl; [apply IH..|done]).
Qed.

(** A row that is usable for [k] stores its price under [k]. *)
Lemma load_rows_usable r rest m k p :
  usable_row ws code_col price_col r k p → skip k = false →
  load_rows skip ws code_col price_col (r :: rest) m
  = load_rows skip ws code_col price_col rest (<[k := p]> m).
Proof.
  intros (Hcode & Hkey & _ & Hprice) Hskip. simpl.
  destruct (cell_value ws r code_col); try done;
    rewrite Hkey, Hskip, Hprice; done.
Qed.

(** Rows that are not usable for [k] leave the entry of [k] alone. *)
Lemma load_rows_other rows m0 m k :
  (∀ x, skip x = false → x ≠ "") →
  (∀ r p, r ∈ rows → ¬ usable_row ws code_col price_col r k p) →
  load_rows skip ws code_col price_col rows m0 = Ret m →
  m !! k = m0 !! k.
Proof.
  intros Hskip. revert m0.
  induction rows as [|r rest IH]; intros m0 Hno; simpl; [by intros [= ->]|].
  assert (∀ r' p, r' ∈ rest → ¬ usable_row ws code_col price_col r' k p)
    as Hrest by (intros r' p ?; apply Hno; by right).
  assert (∀ m1 : gmap string Z,
            load_rows skip ws code_col price_col rest m1 = Ret m →
            m !! k = m1 !! k) as IH' by (intros m1; by apply IH).
  destruct (cell_value ws r code_col) eqn:Hc; try apply IH';
    (destruct (skip _) eqn:Hs; [apply IH'|]);
    (destruct (parse_thousands_to_rp _) as [[p|]|] eqn:Hp; simpl;
       [|apply IH'|done]);
    (intros Hm%IH'; rewrite Hm; apply lookup_insert_ne; intros <-;
     apply (Hno r p); [by left|]; unfold usable_row; rewrite Hc;
     split_and!; [done|done|by apply Hskip|done]).
Qed.

Lemma load_rows_last rows1 r rows2 m0 m k p :
  (∀ x, skip x = false → x ≠ "") →
  load_rows skip ws code_col price_col (rows1 ++ r :: rows2) m0 = Ret m →
  usable_row ws code_col price_col r k p → skip k = false →
  (∀ r' p', r' ∈ rows2 → ¬ usable_row ws code_col price_col r' k p') →
  m !! k = Some p.
Proof.
  intros Hskip (m1 & _ & Hm)%load_rows_app Hrow Hk Hlater.
  rewrite (load_rows_usable r rows2 m1 k p Hrow Hk) in Hm.
  rewrite (load_rows_other rows2 _ m k Hskip Hlater Hm).
  apply lookup_insert_eq.
Qed.

End LoadRows.

(** C10. When several rows below the header give the same normalised code
    with a parseable price, the pricelist map and the addon map hold the
    price of the last of them: if row [r] is usable for key [k] with price
    [p] and no row below [r] is usable for [k], the loaded map sends [k]
    to [p].  (The pricelist loader never stores the key TOTAL.) *)
Theorem loaders_last_row_wins (ws : Worksheet) (r : Z) (k : string) (p : Z) :
  (∀ m hr sku_col m4_col,
     pricelist_of_sheet ws = Ret (m, hr) →
     pricelist_sku_col (map_headers ws hr) = Some sku_col →
     pricelist_m4_col (map_headers ws hr) = Some m4_col →
     hr < r ≤ max_row ws →
     usable_row ws sku_col m4_col r k p → k ≠ "TOTAL" →
     (∀ r' p', r < r' ≤ max_row ws → ¬ usable_row ws sku_col m4_col r' k p') →
     m !! k = Some p)
  ∧ (∀ m hr code_col price_col,
       addon_of_sheet ws = Ret m →
       find_header_row ws
         [["HARGA"; "PRICE"]; ["KODE"; "VARIAN"; "STANDARISASI"; "ADDON"]] 80
       = Some hr →
       addon_code_col (map_headers ws hr) = Some code_col →
       addon_price_col (map_headers ws hr) = Some price_col →
       hr < r ≤ max_row ws →
       usable_row ws code_col price_col r k p →
       (∀ r' p', r < r' ≤ max_row ws → ¬ usable_row ws code_col price_col r' k p') →
       m !! k = Some p).
Proof.
  split.
  - intros m hr sc mc Hload Hsc Hmc Hr Hrow Htotal Hlater.
    unfold pricelist_of_sheet in Hload.
    destruct (find_header_row ws _ 80) as [hr'|]; [|done].
    destruct (hr' =? 0); [done|].
    destruct (pricelist_sku_col _) as [sc'|] eqn:Hsc'; [|done].
    destruct (pricelist_m4_col _) as [mc'|] eqn:Hmc'; [|done].
    destruct (_ || _); [done|].
    destruct (pricelist_rows ws sc' mc' _ ∅) as [m'|] eqn:Hrows; [|done].
    simpl in Hload. case_bool_decide; [done|].
    injection Hload as -> ->. rewrite Hsc in Hsc'. rewrite Hmc in Hmc'.
    injection Hsc' as <-. injection Hmc' as <-.
    rewrite pricelist_rows_load_rows in Hrows.
    rewrite (py_range_split (hr + 1) (max_row ws + 1) r) in Hrows by lia.
    eapply load_rows_last; [|exact Hrows|exact Hrow| |].
    + intros x [Hx _]%orb_false_elim. by apply is_empty_false.
    + destruct Hrow as (_ & _ & Hne & _). apply is_empty_false in Hne.
      rewrite Hne. simpl. by apply String.eqb_neq.
    + intros r' p' Hr'%elem_of_py_range. apply Hlater. lia.
  - intros m hr cc pc Hload Hhr Hcc Hpc Hr Hrow Hlater.
    unfold addon_of_sheet in Hload. rewrite Hhr in Hload.
    destruct (hr =? 0); [done|].
    rewrite Hcc, Hpc in Hload.
    destruct (_ || _); [done|].
    rewrite addon_rows_load_rows in Hload.
    rewrite (py_range_split (hr + 1) (max_row ws + 1) r) in Hload by lia.
    eapply load_rows_last; [|exact Hload|exact Hrow| |].
    + intros x Hx. by apply is_empty_false.
    + destruct Hrow as (_ & _ & Hne & _). by apply is_empty_false.
    + intros r' p' Hr'%elem_of_py_range. apply Hlater. lia.
Qed.

(** ** Batch reconciler *)

Lemma cursor_ok_extend st rows : cursor_ok st → cursor_ok (extend st rows).
Proof.
  unfold cursor_ok, extend. simpl. rewrite length_app. lia.
Qed.

Lemma extend_nil st : extend st [] = st.
Proof.
  destruct st as [o w t]. unfold extend. simpl.
  rewrite app_nil_r. f_equal; lia.
Qed.

Lemma extend_extend st rows1 rows2 :
  extend (extend st rows1) rows2 = extend st (rows1 ++ rows2).
Proof.
  unfold extend. simpl. rewrite length_app, <- app_assoc. f_equal; lia.
Qed.

Lemma insert_row_end st row :
  cursor_ok st → insert_row st row = out_data st ++ [row].
Proof.
  unfold cursor_ok, insert_row. intros ->.
  replace (Z.to_nat (_ + Z.of_nat (length (out_data st)) - DATA_START_ROW))
    with (length (out_data st)) by lia.
  by rewrite firstn_all, drop_all.
Qed.

Lemma process_row_frame ws pl am d max_col r st :
  cursor_ok st →
  process_row ws pl am d max_col r st
  = (extend st (row_rows ws pl am d max_col r),
     (process_row ws pl am d max_col r st0).2).
Proof.
  intros Hst. unfold row_rows, process_row.
  destruct (PyStr.is_empty _); simpl; [by rewrite extend_nil|].
  destruct (parse_rp _) as [old|e]; simpl; [|by rewrite extend_nil].
  destruct (compute_final_price _ _ _ _) as [new|]; simpl;
    [|by rewrite extend_nil].
  destruct (match old with Some o => o =? new | None => false end); simpl;
    [by rewrite extend_nil|].
  rewrite insert_row_end by done. unfold extend. simpl. done.
Qed.

Lemma rows_loop_frame ws pl am d max_col rows st :
  cursor_ok st →
  rows_loop ws pl am d max_col rows st
  = (extend st (out_data (rows_loop ws pl am d max_col rows st0).1),
     (rows_loop ws pl am d max_col rows st0).2).
Proof.
  assert (cursor_ok st0) as H0 by done.
  revert st. induction rows as [|r rest IH]; intros st Hst; simpl.
  - by rewrite extend_nil.
  - rewrite (process_row_frame ws pl am d max_col r st Hst).
    rewrite (process_row_frame ws pl am d max_col r st0 H0).
    destruct (process_row ws pl am d max_col r st0).2 as [e|]; simpl.
    + unfold extend at 2. simpl. done.
    + rewrite (IH (extend st _)) by by apply cursor_ok_extend.
      rewrite (IH (extend st0 _)) by by apply cursor_ok_extend.
      rewrite !extend_extend. unfold extend at 2. simpl. done.
Qed.

(** A file adds to any output the rows it writes on its own, and fails
    with the exception it fails with on its own. *)
Lemma process_file_frame pl am d max_col fbytes st :
  cursor_ok st →
  process_file pl am d max_col fbytes st
  = (extend st (file_rows pl am d max_col fbytes),
     file_error pl am d max_col fbytes).
Proof.
  intros Hst. unfold file_rows, file_error, process_file.
  destruct (load_workbook false fbytes ≫= _) as [ws|e]; simpl.
  - by apply rows_loop_frame.
  - by rewrite extend_nil.
Qed.

Lemma files_loop_frame pl am d max_col files st issues :
  cursor_ok st →
  files_loop pl am d max_col files st issues
  = (extend st (concat (List.map (λ f, file_rows pl am d max_col f.2) files)),
     issues ++ concat (List.map (file_issues pl am d max_col) files)).
Proof.
  revert st issues. induction files as [|[fname fbytes] rest IH];
    intros st issues Hst; simpl.
  - by rewrite extend_nil, app_nil_r.
  - rewrite process_file_frame by done. unfold file_issues at 1. simpl.
    destruct (file_error pl am d max_col fbytes) as [e|]; simpl;
      rewrite IH by (by apply cursor_ok_extend);
      rewrite extend_extend; [by rewrite <- app_assoc|done].
Qed.

(** A row with a SKU, no readable price and a computed price is written:
    the new row holds the computed price in the price column and, in every
    other column up to [max_col], the value of the source row. *)
Lemma process_row_emit ws pl am d max_col r st p :
  cursor_ok st →
  _norm_str (cell_value ws r SKU_COL) ≠ "" →
  parse_rp (cell_value ws r PRICE_COL) = Ret None →
  compute_final_price (_norm_str (cell_value ws r SKU_COL)) pl am d = Some p →
  ∃ row,
    process_row ws pl am d max_col r st = (extend st [row], None)
    ∧ out_cell row PRICE_COL = VInt p
    ∧ ∀ c, 1 ≤ c ≤ max_col → c ≠ PRICE_COL → out_cell row c = cell_value ws r c.
Proof.
  intros Hst Hsku%is_empty_false Hold Hnew.
  unfold process_row. rewrite Hsku, Hold, Hnew.
  rewrite insert_row_end by done.
  eexists. split; [reflexivity|].
  unfold out_cell, set_cell, PRICE_COL.
  set (copied := List.map _ _).
  assert (length copied = Z.to_nat max_col) as Hlen.
  { unfold copied, py_range. rewrite !length_map, length_seq. lia. }
  assert (∀ c, 1 ≤ c ≤ max_col →
            nth (Z.to_nat (c - 1)) copied VNone = cell_value ws r c) as Hnth.
  { intros c Hc. unfold copied, py_range. rewrite List.map_map.
    rewrite (nth_indep _ VNone (cell_value ws r (1 + Z.of_nat 0))).
    - rewrite (List.map_nth (λ i, cell_value ws r (1 + Z.of_nat i))).
      rewrite seq_nth by lia. f_equal. lia.
    - rewrite length_map, length_seq. lia. }
  split.
  - change (7 <? 1) with false. cbv iota.
    rewrite nth_lookup, list_lookup_insert_eq; [done|].
    rewrite length_app, repeat_length. lia.
  - intros c Hc Hne. destruct (Z.ltb_spec c 1) as [|_]; [lia|].
    rewrite <- (Hnth c Hc).
    rewrite !nth_lookup, list_lookup_insert_ne by lia.
    by rewrite lookup_app_l by lia.
Qed.

(** A row whose price already is the computed price writes nothing. *)
Lemma process_row_same ws pl am d max_col r st p :
  parse_rp (cell_value ws r PRICE_COL) = Ret (Some p) →
  compute_final_price (_norm_str (cell_value ws r SKU_COL)) pl am d = Some p →
  process_row ws pl am d max_col r st = (st, None).
Proof.
  intros Hold Hnew. unfold process_row.
  destruct (PyStr.is_empty _); [done|].
  by rewrite Hold, Hnew, Z.eqb_refl.
Qed.

#[local] Arguments files_loop : simpl never.


(** C5 (amended). With an empty list of mass files [process_shopee_files]
    never returns normally: it raises what loading the pricelist or the
    addon table raises, and otherwise the [IndexError] of indexing an empty
    list, which is not a configuration error.  The caller never makes this
    call: it answers an empty upload with its own message. *)
Theorem process_empty_mass_files (pl_bytes : list Byte.byte)
        (addon_bytes : option (list Byte.byte)) (d : Z) :
  process_shopee_files [] pl_bytes addon_bytes d
  = match load_pricelist_map pl_bytes with
    | Raise e => Raise e
    | Ret _ =>
        match addons_of addon_bytes with
        | Raise e => Raise e
        | Ret _ => Raise (MkExn IndexError "list index out of range")
        end
    end
  ∧ ¬ ConfigurationError (MkExn IndexError "list index out of range")
  ∧ on_run [] (Some pl_bytes) addon_bytes d
    = PageError "Mass Update wajib diupload.".
Proof.
  split; [|split; [by intros [=]|done]].
  unfold process_shopee_files, addons_of.
  destruct (load_pricelist_map pl_bytes) as [[pl_map hr]|e]; simpl; [|done].
  destruct (if bytes_truthy addon_bytes then _ else _); done.
Qed.

(** ** Normalisation of codes *)









Lemma norm_key_strip (s : string) :
  _norm_key (VStr (PyStr.strip s)) = _norm_key (VStr s).
Proof. by rewrite !norm_key_str, strip_idem. Qed.


(** ** The resolver reads keys only *)




Lemma addon_loop_key_loop (am : gmap string Z) (addons : list string) (acc : Z) :
  addon_loop am addons acc
  = key_loop am (List.map (λ a, _norm_key (VStr a)) addons) acc.
Proof.
  revert acc. induction addons as [|a rest IH]; intros acc; simpl; [done|].
  destruct (PyStr.is_empty _); [apply IH|].
  destruct (am !! _); [apply IH|done].
Qed.

Lemma key_loop_perm (am : gmap string Z) (ks ks' : list string) (acc : Z) :
  ks ≡ₚ ks' → key_loop am ks acc = key_loop am ks' acc.
Proof.
  intros Hp. revert acc.
  induction Hp as [|k ks ks' _ IH|k1 k2 ks|ks1 ks2 ks3 _ IH1 _ IH2];
    intros acc; simpl.
  - done.
  - destruct (PyStr.is_empty k); [apply IH|].
    destruct (am !! k); [apply IH|done].
  - destruct (PyStr.is_empty k1), (PyStr.is_empty k2); try done;
      destruct (am !! k1), (am !! k2); try done.
    f_equal. lia.
  - by rewrite IH1, IH2.
Qed.

Lemma compute_final_price_key_loop (sku : string) (pl am : gmap string Z) (d : Z) :
  compute_final_price sku pl am d
  = let base_key := _norm_key (VStr (split_sku_addons sku).1) in
    if PyStr.is_empty base_key then None
    else
      match pl !! base_key with
      | None => None
      | Some base_price =>
          match key_loop am (List.map (λ a, _norm_key (VStr a))
                                      (split_sku_addons sku).2) 0 with
          | None => None
          | Some addon_sum =>
              Some (if base_price + addon_sum - d <? 0 then 0
                    else base_price + addon_sum - d)
          end
      end.
Proof.
  unfold compute_final_price. destruct (split_sku_addons sku) as [b l]. simpl.
  by rewrite addon_loop_key_loop.
Qed.

(** X2. The resolver reads a SKU only through the key of its base and the
    keys of its addons, in any order: two SKUs with the same base key and
    the same addon keys, up to their order, resolve alike. *)
Theorem compute_final_price_keys (sku sku' : string) (pl am : gmap string Z)
        (d : Z) :
  _norm_key (VStr (split_sku_addons sku).1)
  = _norm_key (VStr (split_sku_addons sku').1) →
  List.map (λ a, _norm_key (VStr a)) (split_sku_addons sku).2
  ≡ₚ List.map (λ a, _norm_key (VStr a)) (split_sku_addons sku').2 →
  compute_final_price sku pl am d = compute_final_price sku' pl am d.
Proof.
  intros Hbase Hperm. rewrite !compute_final_price_key_loop. simpl.
  rewrite Hbase. by rewrite (key_loop_perm am _ _ 0 Hperm).
Qed.


(** X4. With an empty addon map, as when no addon table is uploaded, only
    a SKU without addons gets a price. *)
Theorem no_addon_table_plain_skus (sku : string) (pl : gmap string Z)
        (d p : Z) :
  compute_final_price sku pl ∅ d = Some p →
  (split_sku_addons sku).2 = []
  ∧ ∃ base_price,
      pl !! _norm_key (VStr (split_sku_addons sku).1) = Some base_price
      ∧ p = Z.max 0 (base_price - d).
Proof.
  unfold compute_final_price.
  pose proof (split_sku_addons_keys sku) as Hkeys.
  destruct (split_sku_addons sku) as [base addons]; simpl in *.
  destruct (PyStr.is_empty _); [done|].
  destruct (pl !! _) as [bp|]; [|done].
  destruct addons as [|a rest].
  - simpl. intros [= <-]. split; [done|]. exists bp. split; [done|].
    destruct (Z.ltb_spec (bp + 0 - d) 0); lia.
  - apply Forall_cons in Hkeys as [Ha _].
    rewrite (addon_loop_missing ∅ (a :: rest) 0 a); [done|by left|done|].
    apply lookup_empty.
Qed.

(** X5. A discount that is not negative takes nothing away from whether a
    SKU resolves, and the discounted price is the undiscounted price minus
    the discount, or 0 when that is negative. *)
Theorem discount_on_undiscounted (sku : string) (pl am : gmap string Z)
        (d : Z) :
  0 ≤ d →
  compute_final_price sku pl am d
  = (λ p0, Z.max 0 (p0 - d)) <$> compute_final_price sku pl am 0.
Proof.
  intros Hd. unfold compute_final_price.
  destruct (split_sku_addons sku) as [base addons].
  destruct (PyStr.is_empty _); [done|].
  destruct (pl !! _) as [bp|]; [|done].
  destruct (addon_loop am addons 0) as [s|]; [|done].
  simpl. f_equal.
  destruct (Z.ltb_spec (bp + s - d) 0), (Z.ltb_spec (bp + s - 0) 0); lia.
Qed.

(** ** Decomposing and recomposing a SKU *)

Lemma split_no_sep (sep : ascii) (s p : string) :
  p ∈ PyStr.split sep s → has_char sep p = false.
Proof.
  revert p. induction s as [|c t IH]; intros p; simpl.
  - by intros ->%list_elem_of_singleton.
  - destruct (Ascii.eqb c sep) eqn:Hc.
    + intros [->|Hp]%elem_of_cons; [done|by apply IH].
    + destruct (PyStr.split sep t) as [|h r]; simpl.
      * intros ->%list_elem_of_singleton. simpl. by rewrite Hc.
      * intros [->|Hp]%elem_of_cons.
        -- simpl. rewrite Hc. apply IH. by left.
        -- apply IH. by right.
Qed.

Lemma lstrip_no_char (c : ascii) (s : string) :
  has_char c s = false → has_char c (PyStr.lstrip s) = false.
Proof.
  induction s as [|c' t IH]; simpl; [done|].
  intros [Hc Ht]%orb_false_elim.
  destruct (PyStr.is_space c'); [by apply IH|]. simpl. by rewrite Hc, Ht.
Qed.

Lemma rstrip_no_char (c : ascii) (s : string) :
  has_char c s = false → has_char c (PyStr.rstrip s) = false.
Proof.
  induction s as [|c' t IH]; simpl; [done|].
  intros [Hc Ht]%orb_false_elim.
  destruct (_ && _); [done|]. simpl. by rewrite Hc, IH.
Qed.

Lemma strip_no_char (c : ascii) (s : string) :
  has_char c s = false → has_char c (PyStr.strip s) = false.
Proof. intros H. by apply rstrip_no_char, lstrip_no_char. Qed.

Lemma split_app_sep (sep : ascii) (p rest : string) :
  has_char sep p = false →
  PyStr.split sep (p +:+ String sep rest) = p :: PyStr.split sep rest.
Proof.
  induction p as [|c t IH]; intros Hp.
  - change (PyStr.split sep (String sep rest) = "" :: PyStr.split sep rest).
    simpl. by rewrite Ascii.eqb_refl.
  - simpl in Hp. apply orb_false_elim in Hp as [Hc Ht].
    change (PyStr.split sep (String c (t +:+ String sep rest))
            = String c t :: PyStr.split sep rest).
    simpl. by rewrite Hc, (IH Ht).
Qed.

Lemma split_whole (sep : ascii) (p : string) :
  has_char sep p = false → PyStr.split sep p = [p].
Proof.
  induction p as [|c t IH]; simpl; [done|].
  intros [Hc Ht]%orb_false_elim. by rewrite Hc, (IH Ht).
Qed.

Lemma split_join (sep : ascii) (l : list string) :
  l ≠ [] → Forall (λ p, has_char sep p = false) l →
  PyStr.split sep (PyStr.join (String sep "") l) = l.
Proof.
  intros Hne Hall. induction Hall as [|p l Hp Hl IH]; [done|].
  destruct l as [|q l]; [by apply split_whole|].
  change (PyStr.join (String sep "") (p :: q :: l))
    with (p +:+ String sep (PyStr.join (String sep "") (q :: l))).
  rewrite split_app_sep by done. by rewrite IH.
Qed.

(** The parts the decomposer keeps: trimmed texts of the non-blank
    segments, none of which holds a [+]. *)
Lemma split_sku_addons_parts (sku : string) :
  ∃ parts,
    Forall (λ p, PyStr.strip p = p ∧ p ≠ "" ∧ has_char "+" p = false) parts
    ∧ split_sku_addons sku
      = match parts with [] => ("", []) | b :: l => (b, l) end.
Proof.
  unfold split_sku_addons.
  set (keep := λ p, negb (PyStr.is_empty (PyStr.strip p))).
  exists (List.map PyStr.strip (List.filter keep (PyStr.split "+" sku))).
  split.
  - apply Forall_forall. intros q Hq.
    apply list_elem_of_In, List.in_map_iff in Hq as (p & <- & Hp).
    apply List.filter_In in Hp as [Hp Hkeep].
    split; [apply strip_idem|]. split.
    + apply is_empty_false. unfold keep in Hkeep.
      by destruct (PyStr.is_empty _).
    + apply strip_no_char, (split_no_sep _ sku). by apply list_elem_of_In.
  - by destruct (List.filter keep _).
Qed.

(** X6. Decomposing is stable: the base and the addon codes it returns are
    trimmed and hold no [+], the addon codes are not empty, and joining them
    with [+] gives a SKU that decomposes into the same base and addons. *)
Theorem split_sku_addons_round_trip (sku : string) :
  let '(base, addons) := split_sku_addons sku in
  split_sku_addons (PyStr.join "+" (base :: addons)) = (base, addons)
  ∧ Forall (λ p, PyStr.strip p = p ∧ has_char "+" p = false) (base :: addons)
  ∧ Forall (λ a, a ≠ "") addons
  ∧ (base = "" → addons = []).
Proof.
  destruct (split_sku_addons_parts sku) as (parts & Hparts & ->).
  destruct parts as [|b l]; [by repeat split; repeat constructor|].
  assert (Forall (λ p, has_char "+" p = false) (b :: l)) as Hplus
    by (eapply Forall_impl; [exact Hparts|]; by intros p (_ & _ & ?)).
  split; [|split; [|split]].
  - unfold split_sku_addons. rewrite split_join by done.
    assert (List.filter (λ p, negb (PyStr.is_empty (PyStr.strip p))) (b :: l)
            = b :: l) as ->.
    { apply List.forallb_filter_id, List.forallb_forall.
      intros p Hp%list_elem_of_In.
      rewrite Forall_forall in Hparts. destruct (Hparts p Hp) as (-> & Hne & _).
      apply is_empty_false in Hne. by rewrite Hne. }
    apply Forall_cons in Hparts as [(Hb & _) Hl]. rewrite Hb. f_equal.
    rewrite <- (List.map_id l) at 2. apply List.map_ext_in.
    intros p Hp%list_elem_of_In. rewrite Forall_forall in Hl.
    by destruct (Hl p Hp).
  - eapply Forall_impl; [exact Hparts|]. by intros p (? & _ & ?).
  - apply Forall_cons in Hparts as [_ Hl].
    eapply Forall_impl; [exact Hl|]. by intros p (_ & ? & _).
  - apply Forall_cons in Hparts as [(_ & Hb & _) _]. done.
Qed.

(** ** The header dictionary *)

Lemma dict_get_set_eq (d : list (string * Z)) (k : string) (v : Z) :
  dict_get (dict_set d k v) k = Some v.
Proof.
  induction d as [|[k' v'] d IH]; simpl; [by rewrite String.eqb_refl|].
  destruct (String.eqb k' k) eqn:Hk; simpl; by rewrite Hk.
Qed.

Lemma dict_get_set_ne (d : list (string * Z)) (k k' : string) (v : Z) :
  k ≠ k' → dict_get (dict_set d k v) k' = dict_get d k'.
Proof.
  intros Hne. induction d as [|[k0 v0] d IH]; simpl.
  - by apply String.eqb_neq in Hne as ->.
  - destruct (String.eqb k0 k) eqn:Hk; simpl; [|by rewrite IH].
    apply String.eqb_eq in Hk as ->. by apply String.eqb_neq in Hne as ->.
Qed.

(** One step of the loop of [map_headers]. *)
Lemma headers_step_other (ws : Worksheet) (hr : Z) (cols : list Z)
      (d : list (string * Z)) (k : string) :
  (∀ c, c ∈ cols → _norm_key (cell_value ws hr c) ≠ k) →
  dict_get
    (fold_left (λ headers c,
                  if PyStr.is_empty (_norm_key (cell_value ws hr c))
                  then headers
                  else dict_set headers (_norm_key (cell_value ws hr c)) c)
               cols d) k
  = dict_get d k.
Proof.
  revert d. induction cols as [|c cols IH]; intros d Hno; simpl; [done|].
  rewrite IH by (intros c' ?; apply Hno; by right).
  destruct (PyStr.is_empty _); [done|].
  apply dict_get_set_ne, Hno. by left.
Qed.

Lemma headers_step_empty (ws : Worksheet) (hr : Z) (cols : list Z)
      (d : list (string * Z)) :
  dict_get
    (fold_left (λ headers c,
                  if PyStr.is_empty (_norm_key (cell_value ws hr c))
                  then headers
                  else dict_set headers (_norm_key (cell_value ws hr c)) c)
               cols d) ""
  = dict_get d "".
Proof.
  revert d. induction cols as [|c cols IH]; intros d; simpl; [done|].
  rewrite IH. destruct (PyStr.is_empty _) eqn:He; [done|].
  apply dict_get_set_ne. by apply is_empty_false.
Qed.

(** X7. The header dictionary sends a header name to the rightmost column
    that carries it: if column [c] of the header row normalises to the
    non-empty key [k] and no column to its right does, the dictionary holds
    [k := c]; a key no column normalises to is absent, and so is the empty
    key. *)
Theorem map_headers_rightmost (ws : Worksheet) (hr : Z) (k : string) :
  (∀ c, 1 ≤ c ≤ max_column ws →
        _norm_key (cell_value ws hr c) = k → k ≠ "" →
        (∀ c', c < c' ≤ max_column ws → _norm_key (cell_value ws hr c') ≠ k) →
        dict_get (map_headers ws hr) k = Some c)
  ∧ ((∀ c, 1 ≤ c ≤ max_column ws → _norm_key (cell_value ws hr c) ≠ k) →
     dict_get (map_headers ws hr) k = None)
  ∧ dict_get (map_headers ws hr) "" = None.
Proof.
  unfold map_headers. split; [|split].
  - intros c Hc Hkey Hne Hright.
    rewrite (py_range_split 1 (max_column ws + 1) c) by lia.
    rewrite fold_left_app. simpl.
    rewrite headers_step_other
      by (intros c' Hc'%elem_of_py_range; apply Hright; lia).
    rewrite Hkey. apply is_empty_false in Hne. rewrite Hne.
    apply dict_get_set_eq.
  - intros Hno. rewrite headers_step_other; [done|].
    intros c Hc%elem_of_py_range. apply Hno. lia.
  - by rewrite headers_step_empty.
Qed.

(** ** The scan window *)

Lemma py_range_app (lo mid hi : Z) :
  lo ≤ mid ≤ hi → py_range lo hi = py_range lo mid ++ py_range mid hi.
Proof.
  intros H. destruct (decide (mid = hi)) as [->|Hne].
  - by rewrite (py_range_nil hi hi), app_nil_r by lia.
  - rewrite (py_range_split lo hi mid) by lia.
    by rewrite (py_range_cons mid hi) by lia.
Qed.

Lemma find_app_Some {A : Type} (f : A → bool) (l1 l2 : list A) (x : A) :
  List.find f l1 = Some x → List.find f (l1 ++ l2) = Some x.
Proof.
  induction l1 as [|y l1 IH]; simpl; [done|]. by destruct (f y).
Qed.

Lemma find_all_false {A : Type} (f : A → bool) (l : list A) :
  (∀ x, f x = false) → List.find f l = None.
Proof.
  intros Hf. induction l as [|y l IH]; simpl; [done|]. by rewrite Hf.
Qed.

(** X8. A header found within a window is found, as the same row, within
    every wider window; no row is found when the window is empty or when
    some keyword group has no keyword. *)
Theorem find_header_row_window (ws : Worksheet) (groups : list (list string))
        (n n' r : Z) :
  (find_header_row ws groups n = Some r → n ≤ n' →
   find_header_row ws groups n' = Some r)
  ∧ (n ≤ 0 → find_header_row ws groups n = None)
  ∧ ([] ∈ groups → find_header_row ws groups n = None).
Proof.
  unfold find_header_row. split; [|split].
  - intros Hfind Hn.
    rewrite (py_range_app 1 (Z.min n (max_row ws) + 1)
               (Z.min n' (max_row ws) + 1)).
    + by apply find_app_Some.
    + assert (1 ≤ Z.min n (max_row ws) + 1); [|lia].
      destruct (Z.le_gt_cases 1 (Z.min n (max_row ws) + 1)) as [|Hlt]; [done|].
      rewrite py_range_nil in Hfind by lia. done.
  - intros Hn. by rewrite py_range_nil by lia.
  - intros Hg. apply find_all_false. intros row.
    unfold row_ok. apply not_true_is_false. intros Hall.
    rewrite List.forallb_forall in Hall.
    by specialize (Hall [] ltac:(by apply list_elem_of_In)).
Qed.

(** ** When the parsers raise *)


(** ** What the loaded maps hold *)

Lemma parse_thousands_multiple (x : value) (n : Z) :
  parse_thousands_to_rp x = Ret (Some n) → (1000 | n).
Proof.
  assert (∀ w, (t ← PyFloat.round w; Ret (Some (t * 1000))) = Ret (Some n) →
               (1000 | n)) as Hbranch.
  { intros w. destruct (PyFloat.round w) as [t|]; simpl; [|done].
    intros [= <-]. by exists t. }
  destruct x as [|b|k|v|s|s]; simpl; try done.
  - intros [= <-]. by exists k.
  - destruct (PyFloat.is_nan v); [done|].
    destruct (PyFloat.ltb v _); [|apply Hbranch].
    destruct (PyFloat.round v) as [r|]; simpl; [|done].
    destruct (PyFloat.ltb _ _); [apply Hbranch|].
    intros [= <-]. by exists r.
  - destruct (PyStr.is_empty _); [done|]. case_bool_decide; [done|].
    intros [= <-]. by eexists.
  - destruct (PyStr.is_empty _); [done|]. case_bool_decide; [done|].
    intros [= <-]. by eexists.
Qed.

Lemma load_rows_sound (skip : string → bool) (ws : Worksheet)
      (code_col price_col : Z) (rows : list Z) (m0 m : gmap string Z)
      (k : string) (p : Z) :
  (∀ x, skip x = false → x ≠ "") →
  load_rows skip ws code_col price_col rows m0 = Ret m →
  m !! k = Some p →
  m0 !! k = Some p
  ∨ ∃ r, r ∈ rows ∧ skip k = false ∧ usable_row ws code_col price_col r k p.
Proof.
  intros Hskip. revert m0.
  induction rows as [|r rest IH]; intros m0; simpl.
  - intros [= ->] ?. by left.
  - assert (∀ m1 : gmap string Z,
              load_rows skip ws code_col price_col rest m1 = Ret m →
              m !! k = Some p →
              m1 !! k = Some p
              ∨ ∃ r', r' ∈ r :: rest ∧ skip k = false
                      ∧ usable_row ws code_col price_col r' k p) as IH'.
    { intros m1 Hm Hk. destruct (IH m1 Hm Hk) as [?|(r' & ? & ?)]; [by left|].
      right. exists r'. split; [by right|done]. }
    destruct (cell_value ws r code_col) eqn:Hc; try apply IH';
      (destruct (skip (_norm_key _)) eqn:Hs; [apply IH'|]);
      (destruct (parse_thousands_to_rp _) as [[q|]|] eqn:Hp; simpl;
         [|apply IH'|done]);
      (intros Hm Hk; destruct (IH' _ Hm Hk) as [Hins|?]; [|by right];
       match type of Hins with
       | <[?key := _]> _ !! _ = _ =>
           destruct (decide (key = k)) as [Heq|Hne];
           [rewrite Heq, lookup_insert_eq in Hins; injection Hins as ->;
            right; exists r; split; [by left|]; rewrite <- Heq;
            split; [done|]; unfold usable_row; rewrite Hc;
            split_and!; [done|done|by apply Hskip|done]
           |rewrite lookup_insert_ne in Hins by done; by left]
       end).
Qed.

(** X10. A pricelist that loads is never empty and holds only what its
    sheet shows: the header row lies within the first 80 rows, and every
    entry [k := p] comes from a row below the header whose code cell
    normalises to [k] and whose M4 cell parses to [p]; no key is empty or
    TOTAL, and every price is a multiple of 1000. *)
Theorem load_pricelist_map_sound (pl_bytes : list Byte.byte)
        (m : gmap string Z) (hr : Z) :
  load_pricelist_map pl_bytes = Ret (m, hr) →
  ∃ ws others sku_col m4_col,
    load_workbook true pl_bytes = Ret (ws :: others)
    ∧ find_header_row ws [["KODEBARANG"; "KODE BARANG"]; ["M4"]] 80 = Some hr
    ∧ 1 ≤ hr ≤ Z.min 80 (max_row ws)
    ∧ pricelist_sku_col (map_headers ws hr) = Some sku_col
    ∧ pricelist_m4_col (map_headers ws hr) = Some m4_col
    ∧ m ≠ ∅
    ∧ ∀ k p, m !! k = Some p →
        k ≠ "" ∧ k ≠ "TOTAL" ∧ (1000 | p)
        ∧ ∃ r, hr < r ≤ max_row ws ∧ usable_row ws sku_col m4_col r k p.
Proof.
  unfold load_pricelist_map.
  destruct (load_workbook true pl_bytes) as [[|ws others]|e]; simpl; try done.
  unfold pricelist_of_sheet.
  pose proof (find_py_range
                (row_ok ws [["KODEBARANG"; "KODE BARANG"]; ["M4"]]) 1
                (Z.min 80 (max_row ws) + 1)) as Hfind.
  fold (find_header_row ws [["KODEBARANG"; "KODE BARANG"]; ["M4"]] 80) in Hfind.
  destruct (find_header_row ws _ 80) as [hr'|] eqn:Hhdr; [|done].
  destruct Hfind as (Hhr & _ & _).
  destruct (hr' =? 0); [done|].
  destruct (pricelist_sku_col _) as [sc|] eqn:Hsc; [|done].
  destruct (pricelist_m4_col _) as [mc|] eqn:Hmc; [|done].
  destruct (_ || _); [done|].
  destruct (pricelist_rows ws sc mc _ ∅) as [m'|] eqn:Hrows; [|done].
  simpl. case_bool_decide as Hempty; [done|].
  intros [= -> ->]. exists ws, others, sc, mc.
  split_and!; try done; [lia..|].
  intros k p Hk. rewrite pricelist_rows_load_rows in Hrows.
  assert (∀ x, PyStr.is_empty x || String.eqb x "TOTAL" = false → x ≠ "")
    as Hskip by (intros x [Hx _]%orb_false_elim; by apply is_empty_false).
  destruct (load_rows_sound _ ws sc mc _ ∅ m k p Hskip Hrows Hk)
    as [Hin|(r & Hr & Hs & Hrow)].
  - by rewrite lookup_empty in Hin.
  - apply orb_false_elim in Hs as [Hne Htot].
    split; [by apply is_empty_false|]. split; [by apply String.eqb_neq|].
    split; [destruct Hrow as (_ & _ & _ & Hp); by eapply parse_thousands_multiple|].
    exists r. split; [|done]. apply elem_of_py_range in Hr. lia.
Qed.

(** X11. An addon table that loads holds only what its sheet shows: every
    entry [k := p] comes from a row below the header whose code cell
    normalises to the non-empty key [k] and whose price cell parses to [p],
    a multiple of 1000.  (It may hold nothing.) *)
Theorem load_addon_map_sound (addon_bytes : list Byte.byte)
        (m : gmap string Z) :
  load_addon_map addon_bytes = Ret m →
  ∃ ws others hr code_col price_col,
    load_workbook true addon_bytes = Ret (ws :: others)
    ∧ find_header_row ws
        [["HARGA"; "PRICE"]; ["KODE"; "VARIAN"; "STANDARISASI"; "ADDON"]] 80
      = Some hr
    ∧ 1 ≤ hr ≤ Z.min 80 (max_row ws)
    ∧ addon_code_col (map_headers ws hr) = Some code_col
    ∧ addon_price_col (map_headers ws hr) = Some price_col
    ∧ ∀ k p, m !! k = Some p →
        k ≠ "" ∧ (1000 | p)
        ∧ ∃ r, hr < r ≤ max_row ws ∧ usable_row ws code_col price_col r k p.
Proof.
  unfold load_addon_map.
  destruct (load_workbook true addon_bytes) as [[|ws others]|e]; simpl;
    try done.
  unfold addon_of_sheet.
  pose proof (find_py_range
                (row_ok ws [["HARGA"; "PRICE"];
                            ["KODE"; "VARIAN"; "STANDARISASI"; "ADDON"]]) 1
                (Z.min 80 (max_row ws) + 1)) as Hfind.
  fold (find_header_row ws [["HARGA"; "PRICE"];
                            ["KODE"; "VARIAN"; "STANDARISASI"; "ADDON"]] 80)
    in Hfind.
  destruct (find_header_row ws _ 80) as [hr|] eqn:Hhdr; [|done].
  destruct Hfind as (Hhr & _ & _).
  destruct (hr =? 0); [done|].
  destruct (addon_code_col _) as [cc|] eqn:Hcc; [|done].
  destruct (addon_price_col _) as [pc|] eqn:Hpc; [|by destruct (addon_code_col _)].
  destruct (_ || _); [done|].
  intros Hrows. exists ws, others, hr, cc, pc.
  split_and!; try done; [lia..|].
  intros k p Hk. rewrite addon_rows_load_rows in Hrows.
  assert (∀ x, PyStr.is_empty x = false → x ≠ "")
    as Hskip by (intros x Hx; by apply is_empty_false).
  destruct (load_rows_sound _ ws cc pc _ ∅ m k p Hskip Hrows Hk)
    as [Hin|(r & Hr & Hs & Hrow)].
  - by rewrite lookup_empty in Hin.
  - split; [by apply is_empty_false|].
    split; [destruct Hrow as (_ & _ & _ & Hp); by eapply parse_thousands_multiple|].
    exists r. split; [|done]. apply elem_of_py_range in Hr. lia.
Qed.

(** ** The run as a whole *)

(** The run, with its loop replaced by what each file contributes. *)
Lemma process_unfold (mass_files : list (string * list Byte.byte))
      (pl_bytes : list Byte.byte) (addon_bytes : option (list Byte.byte))
      (d : Z) :
  process_shopee_files mass_files pl_bytes addon_bytes d
  = match load_pricelist_map pl_bytes with
    | Raise e => Raise e
    | Ret (pl, _) =>
        match addons_of addon_bytes with
        | Raise e => Raise e
        | Ret am =>
            match mass_files with
            | [] => Raise (MkExn IndexError "list index out of range")
            | first :: _ =>
                match load_workbook false first.2 with
                | Raise e => Raise e
                | Ret wb =>
                    match get_first_sheet wb with
                    | Raise e => Raise e
                    | Ret ws0 =>
                        let rows :=
                          concat (List.map
                                    (λ f, file_rows pl am d (max_column ws0) f.2)
                                    mass_files) in
                        Ret (MkOutput wb rows
                               (concat (List.map
                                          (file_issues pl am d (max_column ws0))
                                          mass_files)
                                ++ (if bool_decide (rows = [])
                                    then [no_change_issue] else [])))
                    end
                end
            end
        end
    end.
Proof.
  unfold process_shopee_files, addons_of.
  destruct (load_pricelist_map pl_bytes) as [[pl hr]|e]; simpl; [|done].
  destruct (if bytes_truthy addon_bytes then _ else _) as [am|e]; simpl;
    [|done].
  destruct mass_files as [|first rest]; [done|].
  destruct first as [first_name first_bytes].
  cbn [mbind outcome_bind snd].
  destruct (load_workbook false first_bytes) as [wb|e]; [|done].
  cbn [mbind outcome_bind snd].
  destruct (get_first_sheet wb) as [ws0|e]; [|done].
  cbn [mbind outcome_bind snd].
  rewrite (files_loop_frame pl am d (max_column ws0)
             ((first_name, first_bytes) :: rest)
             (MkState [] DATA_START_ROW 0) []) by done.
  cbn [extend out_data total_updated app].
  set (rows := concat (List.map (λ f, file_rows _ _ _ _ f.2) _)).
  do 2 f_equal. clearbody rows.
  destruct rows as [|row rows']; [by rewrite bool_decide_eq_true_2|].
  rewrite bool_decide_eq_false_2 by done. rewrite app_nil_r.
  by destruct (Z.eqb_spec (0 + Z.of_nat (length (row :: rows'))) 0);
    [simpl in *; lia|].
Qed.

(** X12. The run completes exactly when the pricelist loads, the addon
    table (if given) loads, and there is a first mass file that opens with
    a sheet.  Nothing that happens while the files are processed, and no
    later file that fails to open, aborts the run. *)
Theorem run_completes_iff (mass_files : list (string * list Byte.byte))
        (pl_bytes : list Byte.byte) (addon_bytes : option (list Byte.byte))
        (d : Z) :
  (∃ out, process_shopee_files mass_files pl_bytes addon_bytes d = Ret out)
  ↔ (∃ pl hr, load_pricelist_map pl_bytes = Ret (pl, hr))
    ∧ (∃ am, addons_of addon_bytes = Ret am)
    ∧ ∃ first rest ws0 others,
        mass_files = first :: rest
        ∧ load_workbook false first.2 = Ret (ws0 :: others).
Proof.
  rewrite process_unfold. split.
  - intros [out Hout].
    destruct (load_pricelist_map pl_bytes) as [[pl hr]|e]; [|done].
    destruct (addons_of addon_bytes) as [am|e]; [|done].
    destruct mass_files as [|first rest]; [done|].
    destruct (load_workbook false first.2) as [[|ws0 others]|e] eqn:Hload;
      try done.
    split; [by eauto|]. split; [by eauto|]. by exists first, rest, ws0, others.
  - intros ((pl & hr & ->) & (am & ->) & (first & rest & ws0 & others & -> & ->)).
    simpl. eauto.
Qed.





Lemma out_cell_set_cell (row : OutRow) (c : Z) (v : value) :
  1 ≤ c → out_cell (set_cell row c v) c = v.
Proof.
  intros Hc. unfold out_cell, set_cell.
  destruct (Z.ltb_spec c 1); [lia|].
  rewrite nth_lookup, list_lookup_insert_eq; [done|].
  rewrite length_app, repeat_length. lia.
Qed.

(** What a written row says about the source row it comes from. *)
Lemma row_rows_sound (ws : Worksheet) (pl am : gmap string Z)
      (d max_col r : Z) (row : OutRow) :
  row ∈ row_rows ws pl am d max_col r →
  ∃ p, compute_final_price (_norm_str (cell_value ws r SKU_COL)) pl am d
       = Some p
       ∧ 0 ≤ p
       ∧ parse_rp (cell_value ws r PRICE_COL) ≠ Ret (Some p)
       ∧ out_cell row PRICE_COL = VInt p
       ∧ ∀ c, 1 ≤ c ≤ max_col → c ≠ PRICE_COL →
              out_cell row c = cell_value ws r c.
Proof.
  unfold row_rows, process_row.
  destruct (PyStr.is_empty _) eqn:Hsku; simpl; [by intros ?%elem_of_nil|].
  destruct (parse_rp _) as [old|e] eqn:Hold; simpl; [|by intros ?%elem_of_nil].
  destruct (compute_final_price _ pl am d) as [p|] eqn:Hnew; simpl;
    [|by intros ?%elem_of_nil].
  destruct (match old with Some o => o =? p | None => false end) eqn:Hsame;
    simpl; [by intros ?%elem_of_nil|].
  intros ->%list_elem_of_singleton. exists p.
  split; [done|]. split.
  { revert Hnew. unfold compute_final_price.
    destruct (split_sku_addons _) as [base addons].
    destruct (PyStr.is_empty (_norm_key _)); [done|].
    destruct (pl !! _) as [bp|]; [|done].
    destruct (addon_loop am addons 0) as [a|]; [|done].
    intros [= <-]. destruct (Z.ltb_spec (bp + a - d) 0); lia. }
  split.
  { intros [= ->]. by rewrite Z.eqb_refl in Hsame. }
  split; [by apply out_cell_set_cell|].
  intros c Hc Hne. unfold out_cell, set_cell, PRICE_COL in *.
  destruct (Z.ltb_spec c 1) as [|_]; [lia|].
  set (copied := List.map _ _).
  assert (length copied = Z.to_nat max_col) as Hlen.
  { unfold copied, py_range. rewrite !length_map, length_seq. lia. }
  rewrite !nth_lookup, list_lookup_insert_ne by lia.
  rewrite lookup_app_l by lia. rewrite <- nth_lookup.
  unfold copied, py_range. rewrite List.map_map.
  rewrite (nth_indep _ VNone (cell_value ws r (1 + Z.of_nat 0)))
    by (rewrite length_map, length_seq; lia).
  rewrite (List.map_nth (λ i, cell_value ws r (1 + Z.of_nat i))).
  rewrite seq_nth by lia. f_equal. lia.
Qed.

Lemma rows_loop_rows (ws : Worksheet) (pl am : gmap string Z)
      (d max_col : Z) (rows : list Z) (row : OutRow) :
  row ∈ out_data (rows_loop ws pl am d max_col rows st0).1 →
  ∃ r, r ∈ rows ∧ row ∈ row_rows ws pl am d max_col r.
Proof.
  assert (cursor_ok st0) as H0 by done.
  induction rows as [|r rest IH]; simpl; [by intros ?%elem_of_nil|].
  rewrite (process_row_frame ws pl am d max_col r st0 H0).
  destruct (process_row ws pl am d max_col r st0).2 as [e|]; simpl.
  - intros Hin. exists r. split; [by left|done].
  - rewrite rows_loop_frame by by apply cursor_ok_extend.
    simpl. intros [Hin|Hin]%elem_of_app.
    + exists r. split; [by left|done].
    + destruct (IH Hin) as (r' & ? & ?). exists r'. split; [by right|done].
Qed.

(** X14. Every row of the output of a completed run comes from a data row
    (row 7 or below) of the first sheet of a mass file that opens: the SKU
    of that row resolves to a price that is not the row's parsed existing
    price, the output row carries that price, a non-negative integer, in
    the price column, and in every other column up to the template's last
    one it carries the value of the source row. *)
Theorem output_rows_sound (mass_files : list (string * list Byte.byte))
        (pl_bytes : list Byte.byte) (addon_bytes : option (list Byte.byte))
        (d : Z) (out : Output) (row : OutRow) :
  process_shopee_files mass_files pl_bytes addon_bytes d = Ret out →
  row ∈ out_rows out →
  ∃ pl hr am f ws others r p,
    load_pricelist_map pl_bytes = Ret (pl, hr)
    ∧ addons_of addon_bytes = Ret am
    ∧ f ∈ mass_files
    ∧ load_workbook false f.2 = Ret (ws :: others)
    ∧ DATA_START_ROW ≤ r ≤ max_row ws
    ∧ compute_final_price (_norm_str (cell_value ws r SKU_COL)) pl am d
      = Some p
    ∧ 0 ≤ p
    ∧ parse_rp (cell_value ws r PRICE_COL) ≠ Ret (Some p)
    ∧ out_cell row PRICE_COL = VInt p
    ∧ ∃ template more,
        out_template out = template :: more
        ∧ ∀ c, 1 ≤ c ≤ max_column template → c ≠ PRICE_COL →
               out_cell row c = cell_value ws r c.
Proof.
  rewrite process_unfold.
  destruct (load_pricelist_map pl_bytes) as [[pl hr]|e]; [|done].
  destruct (addons_of addon_bytes) as [am|e]; [|done].
  destruct mass_files as [|first rest]; [done|].
  destruct (load_workbook false first.2) as [[|ws0 more]|e] eqn:Hfirst;
    try done.
  simpl get_first_sheet. cbv iota beta zeta.
  set (files := first :: rest). intros [= <-]. cbn [out_rows out_template].
  intros Hrow.
  change (row ∈ concat (List.map (λ f, file_rows pl am d (max_column ws0) f.2)
                                 (first :: rest))) in Hrow.
  apply list_elem_of_In, List.in_concat in Hrow as (rows & Hrows & Hrow).
  apply List.in_map_iff in Hrows as (f & <- & Hf).
  apply list_elem_of_In in Hrow.
  unfold file_rows, process_file in Hrow.
  destruct (load_workbook false f.2) as [[|ws others]|e] eqn:Hload;
    simpl in Hrow; try by apply elem_of_nil in Hrow.
  apply rows_loop_rows in Hrow as (r & Hr%elem_of_py_range & Hrow).
  apply row_rows_sound in Hrow as (p & Hp & Hnn & Hold & Hprice & Hcopy).
  exists pl, hr, am, f, ws, others, r, p.
  split_and!; try done; [by apply list_elem_of_In|lia..|].
  exists ws0, more. split; [done|]. exact Hcopy.
Qed.

(** ** One file *)








(** ** Plain SKUs *)

(** X17. A SKU with no [+] is its own base: it is priced from the
    pricelist alone, whatever the addon map holds. *)
Theorem plain_sku_price (sku : string) (pl am : gmap string Z) (d : Z) :
  has_char "+" sku = false →
  split_sku_addons sku = (PyStr.strip sku, [])
  ∧ compute_final_price sku pl am d
    = if PyStr.is_empty (_norm_key (VStr sku)) then None
      else (λ base_price, Z.max 0 (base_price - d))
             <$> pl !! _norm_key (VStr sku).
Proof.
  intros Hplain.
  assert (split_sku_addons sku = (PyStr.strip sku, [])) as Hsplit.
  { unfold split_sku_addons. rewrite split_whole by done. simpl.
    destruct (PyStr.is_empty (PyStr.strip sku)) eqn:He; simpl; [|done].
    apply is_empty_true in He. by rewrite He. }
  split; [done|].
  unfold compute_final_price. rewrite Hsplit, norm_key_strip.
  destruct (PyStr.is_empty _); [done|].
  destruct (pl !! _) as [bp|]; simpl; [|done].
  f_equal. destruct (Z.ltb_spec (bp + 0 - d) 0); lia.
Qed.

End App.

(** * The properties at sample inputs *)

(** The decomposer on the spellings a SKU comes in. *)
Example split_sku_addons_samples :
  split_sku_addons "A+B+C" = ("A", ["B"; "C"])
  ∧ split_sku_addons "A++B" = ("A", ["B"])
  ∧ split_sku_addons "A+" = ("A", [])
  ∧ split_sku_addons " a + b " = ("a", ["b"])
  ∧ split_sku_addons "" = ("", []).
Proof. repeat split; reflexivity. Qed.

(** The float literals: [1e-9] and [23.699] are the correctly rounded
    quotients, [-5000.5] is exact. *)
Example float_literals :
  SFdiv PyFloat.prec PyFloat.emax (PyFloat.of_int 1) (PyFloat.of_int 1000000000)
  = PyFloat.lit_1e_9
  ∧ SFdiv PyFloat.prec PyFloat.emax (PyFloat.of_int 23699) (PyFloat.of_int 1000)
    = sample_23_699
  ∧ SFdiv PyFloat.prec PyFloat.emax (PyFloat.of_int (-10001)) (PyFloat.of_int 2)
    = sample_neg_5000_5
  ∧ valid_binary PyFloat.prec PyFloat.emax PyFloat.lit_1e_9 = true
  ∧ valid_binary PyFloat.prec PyFloat.emax sample_neg_5000_5 = true.
Proof. repeat split; vm_compute; reflexivity. Qed.

(** Both parsers on numbers: integers, a float with no fraction, NaN. *)
Example parser_number_samples :
  parse_thousands_to_rp sample_repr (VInt 9300) = Ret (Some 9300000)
  ∧ parse_thousands_to_rp sample_repr (VFloat (PyFloat.of_int 9300))
    = Ret (Some 9300000)
  ∧ parse_rp sample_repr (VFloat (PyFloat.of_int 9300)) = Ret (Some 9300)
  ∧ parse_rp sample_repr (VFloat sample_23_699) = Ret (Some 24)
  ∧ parse_thousands_to_rp sample_repr (VFloat S754_nan) = Ret None
  ∧ parse_rp sample_repr (VBool true) = Ret None.
Proof. repeat split; vm_compute; reflexivity. Qed.

(** The resolver on the sample maps: a plain SKU, a SKU with an addon, an
    unknown base, and a discount. *)
Example compute_final_price_samples :
  compute_final_price sample_repr "BASE1" sample_pl sample_am 0 = Some 9300000
  ∧ compute_final_price sample_repr "base1+pc" sample_pl sample_am 0
    = Some 9800000
  ∧ compute_final_price sample_repr "OTHER+PC" sample_pl sample_am 0 = None
  ∧ compute_final_price sample_repr "BASE1+PC+BA" sample_pl sample_am 50000
    = Some 10000000.
Proof. repeat split; vm_compute; reflexivity. Qed.

(** The header locator on the sample pricelist: the title row is passed
    over, the header is row 2; a window of one row finds nothing. *)
Example find_header_row_samples :
  find_header_row sample_repr sample_pricelist
    [["KODEBARANG"; "KODE BARANG"]; ["M4"]] 80 = Some 2
  ∧ find_header_row sample_repr sample_pricelist
      [["KODEBARANG"; "KODE BARANG"]; ["M4"]] 1 = None
  ∧ map_headers sample_repr sample_pricelist 2
    = [("KODEBARANG", 1); ("NAMA", 2); ("M4", 3)].
Proof. repeat split; vm_compute; reflexivity. Qed.

(** C1 at [BASE1+PC+XX]: the base and [PC] resolve, [XX] does not. *)
Lemma compute_final_price_strict_witness :
  compute_final_price sample_repr "BASE1+PC+XX" sample_pl sample_am 0 = None.
Proof.
  apply (compute_final_price_strict sample_repr "BASE1+PC+XX"
           sample_pl sample_am 0 "XX").
  - vm_compute. repeat constructor.
  - vm_compute. discriminate.
  - vm_compute. reflexivity.
Defined.

(** C2 at [base1 + pc] with a discount above base plus addon. *)
Lemma compute_final_price_value_witness :
  ∃ base_price addon_prices,
    sample_pl !! _norm_key sample_repr
                   (VStr (split_sku_addons "base1 + pc").1) = Some base_price
    ∧ Forall2 (λ a v, sample_am !! _norm_key sample_repr (VStr a) = Some v)
              (split_sku_addons "base1 + pc").2 addon_prices
    ∧ 0 = Z.max 0 (base_price + sum_prices addon_prices - 10000000)
    ∧ 0 ≤ 0
    ∧ (base_price + sum_prices addon_prices < 10000000 → 0 = 0).
Proof.
  apply (compute_final_price_value sample_repr "base1 + pc"
           sample_pl sample_am 10000000 0).
  vm_compute. reflexivity.
Defined.

(** C3: with [a.xlsx] (seven columns) as the template, the row written for
    row 7 of [b.xlsx] (eight columns) stops at column 7: the text of its
    column 8 is not copied. *)
Lemma wider_source_row_truncated :
  match process_shopee_files sample_repr sample_loader
          [("a.xlsx", [Byte.x0a]); ("b.xlsx", [Byte.x0b])]
          [Byte.x01] (Some [Byte.x02]) 0 with
  | Ret out =>
      out_rows out
      = [ [VInt 1001; VStr "Meja"; VNone; VNone; VNone; VStr "BASE1";
           VInt 9300000];
          [VInt 2001; VStr "Kursi"; VNone; VNone; VNone; VStr "base1 + pc";
           VInt 9800000] ]
      ∧ out_issues out = []
  | Raise _ => False
  end
  ∧ cell_value sample_mass_b 7 8 = VStr "catatan".
Proof. vm_compute. split; [split|]; reflexivity. Qed.



(** C5 as stated fails: with a pricelist that loads, the empty list of
    mass files ends in an [IndexError], which is no configuration error. *)
Lemma empty_mass_files_index_error :
  process_shopee_files sample_repr sample_loader [] [Byte.x01] None 0
  = Raise (MkExn IndexError "list index out of range")
  ∧ ¬ ConfigurationError (MkExn IndexError "list index out of range").
Proof. split; [vm_compute; reflexivity|intros [=]]. Qed.

(** C6 as stated fails on a negative float of magnitude 1000 or more: the
    magnitude of -5000.5 is not below 1000, yet the parser does not return
    [round(-5000.5) * 1000 = -5000000]; it reinterprets the fraction. *)
Lemma negative_float_reinterpreted :
  PyFloat.ltb (SFabs sample_neg_5000_5) (PyFloat.of_int 1000) = false
  ∧ PyFloat.round sample_neg_5000_5 = Ret (-5000)
  ∧ parse_thousands_to_rp sample_repr (VFloat sample_neg_5000_5)
    = Ret (Some (-5000500000))
  ∧ -5000500000 ≠ -5000 * 1000.
Proof. repeat split; [vm_compute; reflexivity..|discriminate]. Qed.

(** C6 (amended) at the float nearest to 23.699. *)
Lemma parse_thousands_float_witness :
  PyFloat.round (PyFloat.mul sample_23_699 (PyFloat.of_int 1000)) = Ret 23699
  ∧ parse_thousands_to_rp sample_repr (VFloat sample_23_699)
    = Ret (Some 23699000).
Proof.
  destruct (parse_thousands_float sample_repr sample_23_699 eq_refl)
    as (r & Hr & H).
  change (below_1000 sample_23_699 && fraction_nontrivial sample_23_699)
    with true in H.
  destruct H as (t & Ht & Hparse).
  split; [reflexivity|].
  vm_compute in Ht. injection Ht as <-. exact Hparse.
Defined.




(** C9 at the sample pricelist: row 2 is a header row, row 1 is not. *)
Lemma find_header_row_spec_witness :
  header_like sample_repr sample_pricelist
    [["KODEBARANG"; "KODE BARANG"]; ["M4"]] 2
  ∧ ¬ header_like sample_repr sample_pricelist
        [["KODEBARANG"; "KODE BARANG"]; ["M4"]] 1.
Proof.
  pose proof (find_header_row_spec sample_repr sample_pricelist
                [["KODEBARANG"; "KODE BARANG"]; ["M4"]] 80) as H.
  change (find_header_row sample_repr sample_pricelist
            [["KODEBARANG"; "KODE BARANG"]; ["M4"]] 80) with (Some 2) in H.
  destruct H as (_ & H2 & H1).
  split; [exact H2|apply H1; lia].
Defined.

(** C10 at the sample sheets: [BASE1] is priced on rows 3 and 4 of the
    pricelist, [PC] on rows 2 and 3 of the addon table. *)
Lemma loaders_last_row_wins_witness :
  (∃ m hr, pricelist_of_sheet sample_repr sample_pricelist = Ret (m, hr)
           ∧ m !! "BASE1" = Some 9300000)
  ∧ (∃ m, addon_of_sheet sample_repr sample_addons = Ret m
          ∧ m !! "PC" = Some 500000).
Proof.
  split.
  - exists sample_pl, 2. split; [vm_compute; reflexivity|].
    apply (proj1 (loaders_last_row_wins sample_repr sample_pricelist 4
                    "BASE1" 9300000) sample_pl 2 1 3).
    + vm_compute. reflexivity.
    + vm_compute. reflexivity.
    + vm_compute. reflexivity.
    + change (max_row sample_pricelist) with 5. lia.
    + vm_compute. repeat split; first [reflexivity|discriminate].
    + discriminate.
    + intros r' p' [Hlo Hhi] (Hcode & Hkey & _ & Hprice).
      change (max_row sample_pricelist) with 5 in Hhi.
      assert (r' = 5) as -> by lia.
      vm_compute in Hkey. discriminate.
  - exists sample_am. split; [vm_compute; reflexivity|].
    apply (proj2 (loaders_last_row_wins sample_repr sample_addons 3
                    "PC" 500000) sample_am 1 1 2).
    + vm_compute. reflexivity.
    + vm_compute. reflexivity.
    + vm_compute. reflexivity.
    + vm_compute. reflexivity.
    + change (max_row sample_addons) with 4. lia.
    + vm_compute. repeat split; first [reflexivity|discriminate].
    + intros r' p' [Hlo Hhi] (Hcode & Hkey & _ & Hprice).
      change (max_row sample_addons) with 4 in Hhi.
      assert (r' = 4) as -> by lia.
      vm_compute in Hkey. discriminate.
Defined.

(** * Further properties at sample inputs *)

(** The sample run: the first file fails on its row 8 after writing a row,
    the second does not open, the third writes a row. *)
Example sample_run :
  process_shopee_files sample_repr sample_loader_inf sample_files
    [Byte.x01] (Some [Byte.x02]) 0 = Ret sample_out.
Proof. vm_compute. reflexivity. Qed.

(** X2 at two spellings of one SKU. *)
Lemma compute_final_price_keys_witness :
  compute_final_price sample_repr "BASE1+PC+BA" sample_pl sample_am 0
  = compute_final_price sample_repr " base1 + ba+pc" sample_pl sample_am 0.
Proof.
  apply (compute_final_price_keys sample_repr "BASE1+PC+BA" " base1 + ba+pc").
  - vm_compute. reflexivity.
  - vm_compute. apply perm_swap.
Defined.

(** X4 at [BASE1]. *)
Lemma no_addon_table_plain_skus_witness :
  (split_sku_addons "BASE1").2 = []
  ∧ ∃ base_price,
      sample_pl !! _norm_key sample_repr (VStr (split_sku_addons "BASE1").1)
      = Some base_price
      ∧ 9300000 = Z.max 0 (base_price - 0).
Proof.
  apply (no_addon_table_plain_skus sample_repr "BASE1" sample_pl 0 9300000).
  vm_compute. reflexivity.
Defined.

(** X5 at a discount of 300000. *)
Lemma discount_on_undiscounted_witness :
  compute_final_price sample_repr "BASE1+PC" sample_pl sample_am 300000
  = (λ p0, Z.max 0 (p0 - 300000))
      <$> compute_final_price sample_repr "BASE1+PC" sample_pl sample_am 0.
Proof.
  apply (discount_on_undiscounted sample_repr "BASE1+PC" sample_pl sample_am).
  lia.
Defined.


(** X10 at the sample pricelist. *)
Lemma load_pricelist_map_sound_witness :
  sample_pl ≠ ∅ ∧ (1000 | 9300000).
Proof.
  destruct (load_pricelist_map_sound sample_repr sample_loader [Byte.x01]
              sample_pl 2) as (ws & others & sc & mc & _ & _ & _ & _ & _
                               & Hne & Hall).
  - vm_compute. reflexivity.
  - split; [exact Hne|]. apply (Hall "BASE1" 9300000). reflexivity.
Defined.

(** X11 at the sample addon table. *)
Lemma load_addon_map_sound_witness : (1000 | 500000).
Proof.
  destruct (load_addon_map_sound sample_repr sample_loader [Byte.x02]
              sample_am) as (ws & others & hr & cc & pc & _ & _ & _ & _ & _
                             & Hall).
  - vm_compute. reflexivity.
  - apply (Hall "PC" 500000). reflexivity.
Defined.


(** X14 at the first row of the sample run. *)
Lemma output_rows_sound_witness :
  ∃ p, out_cell sample_row_inf PRICE_COL = VInt p ∧ 0 ≤ p.
Proof.
  destruct (output_rows_sound sample_repr sample_loader_inf sample_files
              [Byte.x01] (Some [Byte.x02]) 0 sample_out sample_row_inf)
    as (pl & hr & am & f & ws & others & r & p & _ & _ & _ & _ & _ & _
        & Hnn & _ & Hprice & _).
  - vm_compute. reflexivity.
  - by left.
  - by exists p.
Defined.



(** X17 at [ base1 ]. *)
Lemma plain_sku_price_witness :
  split_sku_addons " base1 " = (PyStr.strip " base1 ", [])
  ∧ compute_final_price sample_repr " base1 " sample_pl sample_am 0
    = if PyStr.is_empty (_norm_key sample_repr (VStr " base1 ")) then None
      else (λ base_price, Z.max 0 (base_price - 0))
             <$> sample_pl !! _norm_key sample_repr (VStr " base1 ").
Proof.
  apply (plain_sku_price sample_repr " base1 " sample_pl sample_am 0).
  reflexivity.
Defined.

(** X7 at a header row with a repeated name: the third column wins. *)
Lemma map_headers_rightmost_witness :
  dict_get (map_headers sample_repr sample_twice 1) "KODE" = Some 3.
Proof.
  apply (proj1 (map_headers_rightmost sample_repr sample_twice 1 "KODE") 3).
  - change (max_column sample_twice) with 3. lia.
  - vm_compute. reflexivity.
  - discriminate.
  - intros c'. change (max_column sample_twice) with 3. lia.
Defined.

(** X8 at the sample pricelist: found within 2 rows, so within 80. *)
Lemma find_header_row_window_witness :
  find_header_row sample_repr sample_pricelist
    [["KODEBARANG"; "KODE BARANG"]; ["M4"]] 80 = Some 2.
Proof.
  apply (proj1 (find_header_row_window sample_repr sample_pricelist
                  [["KODEBARANG"; "KODE BARANG"]; ["M4"]] 2 80 2)).
  - vm_compute. reflexivity.
  - lia.
Defined.
